(** * arc-framework/platform-spike: messaging fabric, vector memory and
      reasoning workflow

    A shallow embedding of the Python sources

      - [libs/python-sdk/arc_common/messaging/nats_client.py]
      - [libs/python-sdk/arc_common/messaging/pulsar_client.py]
      - [libs/python-sdk/arc_common/models/conversation.py]
      - [services/arc-sherlock-brain/src/database.py]
      - [services/arc-sherlock-brain/src/graph.py]
      - [services/arc-sherlock-brain/src/nats_handler.py]
      - [services/arc-sherlock-brain/src/main.py]
      - [services/arc-scarlett-voice/src/plugins/sherlock_llm.py]

    Python dictionaries are finite maps ([gmap string _]), exceptions are an
    explicit [Raise] result, mutable clients and the database are threaded as
    state, and the external capabilities (JSON codec, embedding model,
    pgvector distance, the LLM, the brokers) are interfaces or oracles. *)

From Stdlib Require Import ZArith NArith String Ascii List Sorted Permutation Lia.
From stdpp Require Import base option list gmap strings sorting.

Set Warnings "-register-all".

Local Open Scope string_scope.
Local Open Scope Z_scope.

(** ** Python runtime: exceptions, results, truthiness *)

Module Py.

Inductive exn_class :=
| ConnectionError
| ValueError
| KeyError
| TypeError
| AttributeError
| JSONDecodeError
| TimeoutError
| DatabaseError        (* sqlalchemy.exc.DBAPIError and subclasses *)
| Exception.           (* any other subclass of Exception *)

Record exn := Exn { exn_class_of : exn_class; exn_msg : string }.

Inductive result (A : Type) :=
| Ok (a : A)
| Raise (e : exn).
Arguments Ok {A} a.
Arguments Raise {A} e.

Definition bind {A B} (r : result A) (k : A -> result B) : result B :=
  match r with
  | Ok a => k a
  | Raise e => Raise e
  end.

Definition is_ok {A} (r : result A) : bool :=
  match r with Ok _ => true | Raise _ => false end.

(** Truthiness of an [Optional[str]]: [None] and [""] are falsy. *)
Definition truthy (o : option string) : bool :=
  match o with
  | Some s => negb (String.eqb s "")
  | None => false
  end.

(** [x or d] for an [Optional[str]] [x]. *)
Definition or_else (o : option string) (d : string) : string :=
  match o with
  | Some s => if String.eqb s "" then d else s
  | None => d
  end.

(** [sep.join(l)] *)
Fixpoint join (sep : string) (l : list string) : string :=
  match l with
  | [] => ""
  | [s] => s
  | s :: rest => s +:+ sep +:+ join sep rest
  end.

(** [str(l)] for a list of strings without quotes or escapes. *)
Definition repr_str_list (l : list string) : string :=
  "[" +:+ join ", " (map (fun s => "'" +:+ s +:+ "'") l) +:+ "]".

(** [d or {}] for an optional dictionary. *)
Definition dict_or_empty {V} (d : option (gmap string V)) : gmap string V :=
  match d with
  | Some m => m
  | None => ∅
  end.

(** Values a callback may return. *)
Inductive pyval :=
| PyNone
| PyBool (b : bool)
| PyInt (z : Z)
| PyStr (s : string).

(** [v is False]: identity with the singleton [False]; [0], [None] and [""]
    are different objects. *)
Definition is_False (v : pyval) : bool :=
  match v with
  | PyBool false => true
  | _ => false
  end.

(** [str(uuid.uuid4())]: 32 lowercase hexadecimal digits of a 128-bit
    integer, grouped 8-4-4-4-12. *)
Definition hex_digit (d : N) : ascii :=
  match d with
  | 0%N => "0" | 1%N => "1" | 2%N => "2" | 3%N => "3"
  | 4%N => "4" | 5%N => "5" | 6%N => "6" | 7%N => "7"
  | 8%N => "8" | 9%N => "9" | 10%N => "a" | 11%N => "b"
  | 12%N => "c" | 13%N => "d" | 14%N => "e" | _ => "f"
  end%char.

Fixpoint hex_fixed (width : nat) (v : N) : string :=
  match width with
  | O => ""
  | S w => hex_fixed w (N.shiftr v 4) +:+ String (hex_digit (N.land v 15)) ""
  end.

Definition uuid_str (u : N) : string :=
  hex_fixed 8 (N.shiftr u 96) +:+ "-" +:+
  hex_fixed 4 (N.shiftr u 80) +:+ "-" +:+
  hex_fixed 4 (N.shiftr u 64) +:+ "-" +:+
  hex_fixed 4 (N.shiftr u 48) +:+ "-" +:+
  hex_fixed 12 u.

(** What a call reads from its environment: the clock and the random
    source. *)
Record Env := {
  utcnow_isoformat : string;   (* datetime.utcnow().isoformat() *)
  uuid4 : N                    (* uuid4().int *)
}.

End Py.

Import Py.

Notation "'let*' x := r 'in' k" := (Py.bind r (fun x => k))
  (at level 10, x name, r at level 200, k at level 200).

(** ** JSON documents and the codec *)

(** A JSON-native Python value: what [json.dumps] accepts without loss
    (numbers are the integers; dictionaries have string keys). *)
Inductive json :=
| JNull
| JBool (b : bool)
| JNum (n : Z)
| JStr (s : string)
| JList (l : list json)
| JObj (m : gmap string json).

(** [json.dumps(v).encode("utf-8")] and [json.loads(b.decode("utf-8"))].
    The byte format itself belongs to the Python standard library; the
    development relies only on the law that decoding an encoded document
    gives the document back. *)
Class JsonCodec := {
  bytes : Type;
  dumps : json -> bytes;
  loads : bytes -> option json;
  loads_dumps : forall v, loads (dumps v) = Some v
}.

(** ** arc_common/messaging/nats_client.py *)

Module NATSAgentClient.
Section Client.
Context `{JsonCodec}.

Definition VALID_SUBJECT_PREFIXES : list string :=
  [ "agent.voice."; "agent.brain."; "agent.tts."; "agent.stt.";
    "system.health."; "system.service." ].

(** The connection object [self.nc], as far as the client uses it: what
    has been handed to the server, and whether [nc.publish] goes through
    or raises. *)
Record NATS := {
  wire : list (string * bytes);
  link_up : bool
}.

Record t := {
  service_name : string;
  nc : NATS;
  _connected : bool
}.

Definition nc_publish (conn : NATS) (subject : string) (payload : bytes)
  : result NATS :=
  if link_up conn
  then Ok {| wire := wire conn ++ [(subject, payload)]; link_up := true |}
  else Raise (Exn Exception "nats: connection closed").

Definition _validate_subject (self : t) (subject : string) : result unit :=
  if negb (existsb (fun prefix => String.prefix prefix subject)
                   VALID_SUBJECT_PREFIXES)
  then Raise (Exn ValueError
                ("Invalid subject: " +:+ subject +:+
                 ". Must start with one of: " +:+
                 repr_str_list VALID_SUBJECT_PREFIXES))
  else Ok tt.

Definition _create_message_envelope (self : t) (env : Env)
    (data : gmap string json) (trace_id event_type : option string)
  : gmap string json :=
  let envelope : gmap string json :=
    {[ "timestamp" := JStr (utcnow_isoformat env +:+ "Z");
       "trace_id" := JStr (or_else trace_id (uuid_str (uuid4 env)));
       "service" := JStr (service_name self) ]} in
  let envelope :=
    match event_type with
    | Some e => if truthy event_type
                then <["event_type" := JStr e]> envelope
                else envelope
    | None => envelope
    end in
  (* envelope.update(data): the entries of [data] replace those already
     in [envelope] *)
  data ∪ envelope.

Definition publish (self : t) (env : Env) (subject : string)
    (data : gmap string json) (trace_id event_type : option string)
  : result unit * t :=
  if negb (_connected self)
  then (Raise (Exn ConnectionError
                 (service_name self +:+ ": Not connected to NATS")), self)
  else
    match _validate_subject self subject with
    | Raise e => (Raise e, self)
    | Ok _ =>
        let envelope :=
          _create_message_envelope self env data trace_id event_type in
        let message_bytes := dumps (JObj envelope) in
        match nc_publish (nc self) subject message_bytes with
        | Ok nc' =>
            (Ok tt, {| service_name := service_name self;
                       nc := nc';
                       _connected := _connected self |})
        | Raise e => (Raise e, self)
        end
    end.

(** The inner [message_handler] of [subscribe]: decode, read the trace id
    with [data.get], hand the dictionary to the user callback, and swallow
    (log) whatever goes wrong. The callback acts on a state [S] of its
    own. *)
Definition message_handler {S : Type}
    (callback : gmap string json -> S -> result unit * S)
    (msg_data : bytes) (s : S) : S :=
  match loads msg_data with
  | Some (JObj data) => snd (callback data s)
  | Some _ => s                 (* data.get: AttributeError, logged *)
  | None => s                   (* json.JSONDecodeError, logged *)
  end.

Definition publish_heartbeat (self : t) (env : Env) (status : string)
    (metrics : option (gmap string json)) : result unit * t :=
  publish self env "system.health.heartbeat"
    {[ "service" := JStr (service_name self);
       "status" := JStr status;
       "metrics" := JObj (dict_or_empty metrics) ]}
    None (Some "heartbeat").

End Client.
End NATSAgentClient.

(** ** arc_common/messaging/pulsar_client.py *)

Module PulsarAgentClient.
Section Client.
Context `{JsonCodec}.

Definition NAMESPACE_EVENTS : string := "arc/events".
Definition NAMESPACE_ANALYTICS : string := "arc/analytics".
Definition NAMESPACE_AUDIT : string := "arc/audit".

(** A message as the broker stores it. *)
Record Message := {
  msg_topic : string;
  msg_data : bytes;
  msg_partition_key : option string;
  msg_properties : gmap string json
}.

(** The [pulsar.Client] behind the wrapper: the log of what producers
    have sent, and whether broker operations go through or raise. *)
Record Broker := {
  log : list Message;
  broker_up : bool
}.

Record t := {
  service_name : string;
  client : Broker;
  producers : gset string;      (* topics with a cached producer *)
  _connected : bool
}.

Definition MessageId := nat.

Definition _get_producer (self : t) (topic : string) : result unit * t :=
  if decide (topic ∈ producers self) then (Ok tt, self)
  else if negb (_connected self)
  then (Raise (Exn ConnectionError
                 (service_name self +:+ ": Not connected to Pulsar")), self)
  else if broker_up (client self)
  then (Ok tt, {| service_name := service_name self;
                  client := client self;
                  producers := {[ topic ]} ∪ producers self;
                  _connected := _connected self |})
  else (Raise (Exn Exception "pulsar: create_producer failed"), self).

Definition _create_message_envelope (self : t) (env : Env)
    (data : gmap string json) (trace_id event_type : option string)
  : gmap string json :=
  let envelope : gmap string json :=
    {[ "timestamp" := JStr (utcnow_isoformat env +:+ "Z");
       "trace_id" := JStr (or_else trace_id (uuid_str (uuid4 env)));
       "service" := JStr (service_name self) ]} in
  let envelope :=
    match event_type with
    | Some e => if truthy event_type
                then <["event_type" := JStr e]> envelope
                else envelope
    | None => envelope
    end in
  data ∪ envelope.

(** [producer.send]: appends to the log and returns the new message id. *)
Definition producer_send (b : Broker) (m : Message) : result (MessageId * Broker) :=
  if broker_up b
  then Ok (length (log b), {| log := log b ++ [m]; broker_up := true |})
  else Raise (Exn Exception "pulsar: send failed").

Definition produce (self : t) (env : Env) (topic : string)
    (data : gmap string json) (message_key trace_id event_type : option string)
    (properties : option (gmap string json))
  : result MessageId * t :=
  match _get_producer self topic with
  | (Raise e, self') => (Raise e, self')
  | (Ok _, self') =>
      let envelope :=
        _create_message_envelope self' env data trace_id event_type in
      let message_bytes := dumps (JObj envelope) in
      (* envelope["trace_id"] is always present *)
      let msg_properties :=
        <["service" := JStr (service_name self')]>
          (<["trace_id" := default JNull (envelope !! "trace_id")]>
             (dict_or_empty properties)) in
      let msg_properties :=
        match event_type with
        | Some e => if truthy event_type
                    then <["event_type" := JStr e]> msg_properties
                    else msg_properties
        | None => msg_properties
        end in
      let partition_key :=
        if truthy message_key then message_key else None in
      match producer_send (client self')
              {| msg_topic := topic; msg_data := message_bytes;
                 msg_partition_key := partition_key;
                 msg_properties := msg_properties |} with
      | Ok (msg_id, b') =>
          (Ok msg_id, {| service_name := service_name self';
                         client := b';
                         producers := producers self';
                         _connected := _connected self' |})
      | Raise e => (Raise e, self')
      end
  end.

Definition produce_conversation_event (self : t) (env : Env)
    (conversation_id event_type : string) (data : gmap string json)
    (trace_id : option string) : result MessageId * t :=
  produce self env
    ("persistent://" +:+ NAMESPACE_EVENTS +:+ "/conversations")
    data (Some conversation_id) trace_id (Some event_type) None.

(** *** The consume loop *)

(** What [callback(data, msg)] does: return a value or raise. *)
Inductive outcome :=
| Returns (v : pyval)
| Raises (e : exn).

(** What [consumer.receive()] does: deliver a message or raise. *)
Inductive received :=
| Received (m : Message)
| ReceiveError (e : exn).

(** What the loop asks of the consumer about a message. *)
Inductive settle :=
| Acknowledge (m : Message)
| NegativeAcknowledge (m : Message).

(** The consumer [client.subscribe] returns: what its [receive()] yields,
    in order, and what [acknowledge] and [negative_acknowledge] do, given
    the calls made on the consumer before. A finite list stands for the
    messages delivered so far. *)
Record Consumer := {
  deliveries : list received;
  settles : list settle -> settle -> result unit
}.

(** An [except] branch of the loop body: [negative_acknowledge]; when that
    raises, the exception reaches the outer [except] and the loop breaks.
    The result is the calls made so far and whether the loop goes on. *)
Definition nack_in_handler (consumer : Consumer) (calls : list settle)
    (msg : Message) : list settle * bool :=
  ((calls ++ [NegativeAcknowledge msg])%list,
   is_ok (settles consumer calls (NegativeAcknowledge msg))).

(** A settle call at the end of the inner [try]: when it raises,
    [except Exception] negatively acknowledges the message. *)
Definition settle_in_try (consumer : Consumer) (calls : list settle)
    (call : settle) (msg : Message) : list settle * bool :=
  match settles consumer calls call with
  | Ok _ => ((calls ++ [call])%list, true)
  | Raise _ => nack_in_handler consumer (calls ++ [call])%list msg
  end.

(** One pass through the body of [while True] for a received message. *)
Definition consume_message
    (callback : gmap string json -> Message -> outcome)
    (consumer : Consumer) (calls : list settle) (msg : Message)
  : list settle * bool :=
  match loads (msg_data msg) with
  | None =>                                  (* except json.JSONDecodeError *)
      nack_in_handler consumer calls msg
  | Some (JObj data) =>
      match callback data msg with
      | Returns should_ack =>
          if is_False should_ack
          then settle_in_try consumer calls (NegativeAcknowledge msg) msg
          else settle_in_try consumer calls (Acknowledge msg) msg
      | Raises _ =>                          (* except Exception *)
          nack_in_handler consumer calls msg
      end
  | Some _ =>
      (* data.get("trace_id", ...) raises AttributeError: except Exception *)
      nack_in_handler consumer calls msg
  end.


(** The dead-letter policy [consume] subscribes with. *)
Definition max_redeliver_count : nat := 3.
Definition dead_letter_topic (topic : string) : string := topic +:+ "-dlq".


End Client.
End PulsarAgentClient.

(** ** pgvector and the embedding model *)

(** Floating-point scalars as PostgreSQL compares them ([float8] is totally
    ordered), with the two pgvector distance operators the code uses. *)
Class VectorOps := {
  scalar : Type;
  l2_distance : list scalar -> list scalar -> scalar;
  cosine_distance : list scalar -> list scalar -> scalar;
  scalar_le : relation scalar;
  scalar_le_dec :: RelDecision scalar_le;
  scalar_le_total :: Total scalar_le;
  scalar_le_trans :: Transitive scalar_le
}.

(** [SentenceTransformer(...).encode(text).tolist()] *)
Class EmbeddingModel `{VectorOps} := {
  encode : string -> list scalar
}.

(** SQL building blocks shared by the two stores. *)
Module Sql.

(** [LIMIT n]; PostgreSQL rejects a negative count. *)
Definition limit {A} (n : Z) (l : list A) : result (list A) :=
  if n <? 0
  then Raise (Exn DatabaseError "LIMIT must not be negative")
  else Ok (take (Z.to_nat n) l).

(** Ascending order on a nullable key: NULLs sort last. *)
Definition nulls_last {K} (le : relation K) : relation (option K) :=
  fun a b =>
    match a, b with
    | Some x, Some y => le x y
    | _, None => True
    | None, Some _ => False
    end.

(** [ORDER BY key ASC] *)
Definition order_by {A K} (le : relation K) `{!RelDecision le}
    (key : A -> K) (l : list A) : list A :=
  @merge_sort A (fun a b => le (key a) (key b))
    (fun a b => decide_rel le (key a) (key b)) l.

End Sql.

(** ** arc_common/models/conversation.py *)

Module Models.
Section Models.
Context `{VectorOps}.

Record Conversation := {
  id : N;                                  (* UUID *)
  user_id : string;
  agent_id : string;
  room_name : option string;
  session_id : option string;
  turn_index : Z;
  user_input : string;
  agent_response : string;
  embedding : option (list scalar);        (* Vector(1536), nullable *)
  context_used : option json;
  llm_model : option string;
  llm_tokens_used : option Z;
  stt_model : option string;
  tts_model : option string;
  stt_latency_ms : option Z;
  llm_latency_ms : option Z;
  tts_latency_ms : option Z;
  total_latency_ms : option Z;
  created_at : Z;
  updated_at : Z
}.

(** An SQLAlchemy session, as far as the helper reads it: the rows of
    [agents.conversations]. *)
Definition Session := list Conversation.

#[local] Instance nulls_last_dec : RelDecision (Sql.nulls_last scalar_le).
Proof.
  intros [x|] [y|]; simpl; [apply scalar_le_dec | left | right | left]; tauto.
Defined.

Definition find_similar_conversations (session : Session)
    (query_embedding : list scalar) (limit : Z) (user_id_arg : option string)
  : result (list Conversation) :=
  let query := session in
  let query :=
    match user_id_arg with
    | Some u => if truthy user_id_arg
                then filter (fun c => user_id c = u) query
                else query
    | None => query
    end in
  let query :=
    Sql.order_by (Sql.nulls_last scalar_le)
      (fun c => (fun e => cosine_distance e query_embedding) <$> embedding c)
      query in
  Sql.limit limit query.

End Models.
End Models.

(** ** services/arc-sherlock-brain/src/database.py *)

Module Database.
Section Database.
Context `{EmbeddingModel}.

Record Conversation := {
  id : Z;                        (* Integer, primary key, autoincrement *)
  user_id : string;              (* String(255), not null *)
  text : string;                 (* Text, not null *)
  embedding : list scalar;       (* Vector(384), not null *)
  created_at : Z                 (* server_default=func.now() *)
}.

(** The dimension declared for the [embedding] column. *)
Definition EMBEDDING_DIM : nat := 384.

(** The database behind the connection pool: the table, the id sequence,
    the time the server stamps on the row inserted under a given id, and
    whether statements reach the server or raise. *)
Record t := {
  conversations : list Conversation;
  next_id : Z;
  server_now : Z -> Z;
  reachable : bool
}.

(** What the column types of [Conversation] make the server reject at
    [flush]. *)
Definition check_columns (c : Conversation) : result unit :=
  if (255 <? String.length (user_id c))%nat
  then Raise (Exn DatabaseError
                "value too long for type character varying(255)")
  else if negb (length (embedding c) =? EMBEDDING_DIM)%nat
  then Raise (Exn DatabaseError "expected 384 dimensions")
  else Ok tt.

(** [async with db.session()]: commit when the body returns, roll back and
    re-raise when it raises. *)
Definition session {A} (db : t) (body : t -> result (A * t)) : result A * t :=
  if negb (reachable db)
  then (Raise (Exn DatabaseError "connection refused"), db)
  else
    match body db with
    | Ok (a, db') => (Ok a, db')
    | Raise e => (Raise e, db)
    end.

Definition save_conversation (db : t) (user_id_arg text_arg : string)
  : result Z * t :=
  let embedding := encode text_arg in
  session db (fun s =>
    let conversation :=
      {| id := next_id s; user_id := user_id_arg; text := text_arg;
         embedding := embedding; created_at := server_now s (next_id s) |} in
    let* _ := check_columns conversation in
    let conversation_id := id conversation in
    Ok (conversation_id,
        {| conversations := conversations s ++ [conversation];
           next_id := next_id s + 1;
           server_now := server_now s;
           reachable := reachable s |})).

(** The rows of the SELECT in [get_context], before ordering. *)
Definition select_distances (s : t) (user_id_arg : string)
    (query_embedding : list scalar) : list (Z * string * scalar) :=
  (fun c => (id c, text c, l2_distance (embedding c) query_embedding))
    <$> filter (fun c => user_id c = user_id_arg) (conversations s).

Definition get_context (db : t) (user_id_arg query_text : string) (top_k : Z)
  : result (list (Z * string * scalar)) * t :=
  let query_embedding := encode query_text in
  session db (fun s =>
    let* rows := Sql.limit top_k
                 (Sql.order_by scalar_le (fun row => row.2)
                    (select_distances s user_id_arg query_embedding)) in
    let context := (fun row => (row.1.1, row.1.2, row.2)) <$> rows in
    Ok (context, s)).

Definition get_recent_conversations (db : t) (user_id_arg : string) (limit : Z)
  : result (list (Z * string)) * t :=
  session db (fun s =>
    let* rows := Sql.limit limit
                 (Sql.order_by (flip Z.le) created_at
                    (filter (fun c => user_id c = user_id_arg)
                            (conversations s))) in
    Ok ((fun c => (id c, text c)) <$> rows, s)).

Definition check_database_health (db : t) : bool :=
  match session db (fun s => Ok (tt, s)) with
  | (Ok _, _) => true
  | (Raise _, _) => false
  end.

End Database.
End Database.

(** ** services/arc-sherlock-brain/src/graph.py *)

Module Graph.
Section Graph.
Context `{EmbeddingModel}.

Inductive BaseMessage :=
| SystemMessage (content : string)
| HumanMessage (content : string)
| AIMessage (content : string).

Definition content (m : BaseMessage) : string :=
  match m with
  | SystemMessage c | HumanMessage c | AIMessage c => c
  end.

(** The values an [AgentState] dictionary holds. *)
Inductive value :=
| VNone
| VStr (s : string)
| VBool (b : bool)
| VTexts (l : list string)
| VMessages (l : list BaseMessage).

(** [AgentState] is a [TypedDict], at run time a plain dictionary with the
    keys [messages], [user_id], [context] and [final_response]. *)
#[local] Abbreviation AgentState := (gmap string value).

(** What [llm_client.ainvoke] gives back: an object with a [content]
    attribute, or some other object of which [str()] is taken. *)
Inductive llm_response :=
| WithContent (c : string)
| WithoutContent (str : string).

(** The LLM client: [ainvoke] on a formatted prompt returns or raises
    (a timeout is an exception like any other). *)
Definition llm_client := list BaseMessage -> result llm_response.

Definition FALLBACK_RESPONSE : string :=
  "I apologize, but I'm having trouble processing your request right now.".

Definition key_error {A} (key : string) : result A :=
  Raise (Exn KeyError key).

Definition type_error {A} (what : string) : result A :=
  Raise (Exn TypeError what).

(** [state["user_id"]], read at its declared type. *)
Definition get_user_id (state : AgentState) : result string :=
  match state !! "user_id" with
  | None => key_error "user_id"
  | Some (VStr u) => Ok u
  | Some _ => type_error "user_id"
  end.

(** [state["messages"]], read at its declared type. *)
Definition get_messages (state : AgentState) : result (list BaseMessage) :=
  match state !! "messages" with
  | None => key_error "messages"
  | Some (VMessages ms) => Ok ms
  | Some _ => type_error "messages"
  end.

(** Node 1. *)
Definition retrieve_context_node (state : AgentState) (db : Database.t)
  : result AgentState * Database.t :=
  match get_user_id state with
  | Raise e => (Raise e, db)
  | Ok user_id =>
      match get_messages state with
      | Raise e => (Raise e, db)
      | Ok messages =>
          let latest_message :=
            match last messages with
            | Some m => content m
            | None => ""
            end in
          match Database.get_context db user_id latest_message 5 with
          | (Raise e, db') => (Raise e, db')
          | (Ok context_results, db') =>
              let context_texts :=
                (fun r => r.1.2) <$> context_results in
              (Ok (<["context" := VTexts context_texts]> state), db')
          end
      end
  end.

Definition SYSTEM_PROMPT_HEAD : string :=
"You are Sherlock, an AI reasoning assistant.
You have access to conversation history to provide contextual responses.

Previous Conversation Context:
".

Definition SYSTEM_PROMPT_TAIL : string :=
"

Respond thoughtfully and concisely based on the user's message and available context.
".

Definition context_str (context : list string) : string :=
  match context with
  | [] => "No prior context available."
  | _ => join (String "010"%char "") ((fun ctx => "- " +:+ ctx) <$> context)
  end.

Definition format_messages (context : list string)
    (messages : list BaseMessage) : list BaseMessage :=
  SystemMessage (SYSTEM_PROMPT_HEAD +:+ context_str context +:+
                 SYSTEM_PROMPT_TAIL) :: messages.

(** Node 2. *)
Definition generate_response_node (state : AgentState) (llm : llm_client)
  : result AgentState :=
  let* _ := get_user_id state in
  let* messages := get_messages state in
  let* context :=
    match state !! "context" with
    | None => Ok []                              (* state.get("context", []) *)
    | Some (VTexts l) => Ok l
    | Some _ => type_error "context"             (* len(None) *)
    end in
  let formatted_prompt := format_messages context messages in
  let response_text :=
    match llm formatted_prompt with
    | Ok (WithContent c) => c
    | Ok (WithoutContent s) => s
    | Raise _ => FALLBACK_RESPONSE
    end in
  Ok (<["messages" := VMessages (messages ++ [AIMessage response_text])]>
        (<["final_response" := VStr response_text]> state)).

(** How a compiled [StateGraph(AgentState)] folds what a node returns
    into the state: [messages] is declared [Annotated[..., add]], so the
    returned list is added to the one already there; every other key is
    overwritten. *)
Definition apply_update (state update : AgentState) : AgentState :=
  let merged := update ∪ state in
  match state !! "messages", update !! "messages" with
  | Some (VMessages old), Some (VMessages new) =>
      <["messages" := VMessages (old ++ new)]> merged
  | _, _ => merged
  end.

(** A compiled graph, as [ainvoke] runs it. *)
Definition StateGraph :=
  AgentState -> Database.t -> result AgentState * Database.t.

(** START -> retrieve_context -> generate_response -> END *)
Definition create_reasoning_graph (llm : llm_client) : StateGraph :=
  fun input db =>
    let state0 := apply_update ∅ input in
    match retrieve_context_node state0 db with
    | (Raise e, db') => (Raise e, db')
    | (Ok update1, db') =>
        let state1 := apply_update state0 update1 in
        match generate_response_node state1 llm with
        | Raise e => (Raise e, db')
        | Ok update2 => (Ok (apply_update state1 update2), db')
        end
    end.

Definition initial_state (user_id message : string) : AgentState :=
  {[ "messages" := VMessages [HumanMessage message];
     "user_id" := VStr user_id;
     "context" := VNone;
     "final_response" := VNone ]}.

Definition invoke_reasoning_graph (graph : StateGraph) (db : Database.t)
    (user_id message : string) : result string * Database.t :=
  match graph (initial_state user_id message) db with
  | (Raise e, db1) => (Raise e, db1)
  | (Ok final_state, db1) =>
      match final_state !! "final_response" with
      | None => (key_error "final_response", db1)
      | Some response =>
          (* Persist conversation *)
          match Database.save_conversation db1 user_id message with
          | (Raise e, db2) => (Raise e, db2)
          | (Ok _, db2) =>
              match response with
              | VStr response_text =>
                  match Database.save_conversation db2 user_id response_text with
                  | (Raise e, db3) => (Raise e, db3)
                  | (Ok _, db3) => (Ok response_text, db3)
                  end
              | _ => (type_error "response", db2)
              end
          end
      end
  end.

End Graph.
End Graph.

(** ** services/arc-scarlett-voice/src/plugins/sherlock_llm.py *)

Module SherlockLLM.
Section Plugin.
Context `{JsonCodec}.

(** Python's [str()] on a decoded value, used only inside messages. *)
Variable py_str : json -> string.

(** What [nc.request] on the raw NATS connection does. *)
Inductive request_outcome :=
| Reply (data : bytes)
| TimedOut                       (* asyncio.TimeoutError *)
| RequestFailed (e : exn).

(** The NATS server as the plugin meets it. *)
Record Server := {
  connect_result : result unit;                    (* nats.connect *)
  request : string -> bytes -> request_outcome     (* subject, payload *)
}.

Record t := {
  nats_url : string;
  timeout : string;              (* the timeout in seconds, as printed *)
  user_id : string;
  nc : bool                      (* [self.nc] is set *)
}.

Inductive ChatMessage :=
| WithContent (content : string)      (* hasattr(last_msg, "content") *)
| Other (str : string).               (* anything else: str(last_msg) *)

Record SherlockLLMStream := {
  response_text : json;
  request_text : string
}.

Definition FALLBACK_RESPONSE : string :=
  "I apologize, but I'm having trouble processing your request right now.".

Definition set_nc (self : t) (connected : bool) : t :=
  {| nats_url := nats_url self; timeout := timeout self;
     user_id := user_id self; nc := connected |}.

Definition connect (self : t) (srv : Server) : result unit * t :=
  if nc self then (Ok tt, self)
  else match connect_result srv with
       | Ok _ => (Ok tt, set_nc self true)
       | Raise e => (Raise e, self)
       end.

Definition _extract_latest_message (chat_ctx : list ChatMessage) : string :=
  match last chat_ctx with
  | None => ""
  | Some (WithContent c) => c
  | Some (Other s) => s
  end.

Definition _call_brain (self : t) (srv : Server) (text : string)
  : result json * t :=
  match connect self srv with
  | (Raise e, self') => (Raise e, self')
  | (Ok _, self') =>
      let request_payload : gmap string json :=
        {[ "user_id" := JStr (user_id self'); "text" := JStr text ]} in
      (match request srv "brain.request" (dumps (JObj request_payload)) with
       | TimedOut =>
           Raise (Exn Exception
                    ("Brain request timed out after " +:+ timeout self' +:+ "s"))
       | RequestFailed e => Raise e
       | Reply data =>
           match loads data with
           | None => Raise (Exn JSONDecodeError "Expecting value")
           | Some (JObj response_data) =>
               match response_data !! "error" with
               | Some err =>
                   Raise (Exn Exception ("Brain error: " +:+ py_str err))
               | None =>
                   match response_data !! "text" with
                   | None => Ok (JStr "")
                   | Some (JStr s) => Ok (JStr s)
                   | Some (JList l) => Ok (JList l)
                   | Some (JObj m) => Ok (JObj m)
                   | Some _ => Raise (Exn TypeError "object has no len()")
                   end
               end
           | Some (JStr _) | Some (JList _) =>
               (* "error" in response_data holds or not; if not,
                  response_data.get fails *)
               Raise (Exn Exception "Brain error or AttributeError")
           | Some _ =>
               Raise (Exn TypeError "argument is not iterable")
           end
       end, self')
  end.

Definition chat (self : t) (srv : Server) (chat_ctx : list ChatMessage)
  : SherlockLLMStream * t :=
  let user_message := _extract_latest_message chat_ctx in
  match _call_brain self srv user_message with
  | (Ok response, self') =>
      ({| response_text := response; request_text := user_message |}, self')
  | (Raise _, self') =>
      ({| response_text := JStr FALLBACK_RESPONSE;
          request_text := user_message |}, self')
  end.

End Plugin.
End SherlockLLM.

(** ** The deployment around a reasoning pass *)

Module Deployment.
Section Deployment.
Context `{JsonCodec} `{EmbeddingModel}.

(** The state a reasoning pass could touch: the memory store and the log
    of the durable bus. *)
Record World := {
  memory : Database.t;
  durable : PulsarAgentClient.Broker
}.

(** [invoke_reasoning_graph] receives the graph and the database only. *)
Definition invoke_reasoning_graph (w : World) (graph : Graph.StateGraph)
    (user_id message : string) : result string * World :=
  let '(r, db') :=
    Graph.invoke_reasoning_graph graph (memory w) user_id message in
  (r, {| memory := db'; durable := durable w |}).

Definition is_str (v : option json) (s : string) : bool :=
  match v with
  | Some (JStr s') => String.eqb s' s
  | _ => false
  end.

(** The conversation events of a given type and key in the durable log. *)
Definition conversation_events (b : PulsarAgentClient.Broker)
    (event_type key : string) : list PulsarAgentClient.Message :=
  List.filter
    (fun m =>
       is_str (PulsarAgentClient.msg_properties m !! "event_type") event_type
       && bool_decide (PulsarAgentClient.msg_partition_key m = Some key))
    (PulsarAgentClient.log b).

End Deployment.
End Deployment.

(** ** Small concrete models of the external capabilities *)

(** A wire format for examples: a byte string either is the encoding of a
    document or is not JSON at all. *)
Inductive doc_bytes :=
| Encoded (v : json)
| Malformed (raw : string).

Definition doc_codec : JsonCodec := {|
  bytes := doc_bytes;
  dumps := Encoded;
  loads := fun b => match b with Encoded v => Some v | Malformed _ => None end;
  loads_dumps := fun v => eq_refl
|}.

(** Integer vectors with the squared Euclidean distance and the negated
    inner product, ordered as integers. *)
Fixpoint sq_dist (a b : list Z) : Z :=
  match a, b with
  | x :: a', y :: b' => (x - y) * (x - y) + sq_dist a' b'
  | _, _ => 0
  end.

Fixpoint neg_dot (a b : list Z) : Z :=
  match a, b with
  | x :: a', y :: b' => neg_dot a' b' - x * y
  | _, _ => 0
  end.

Definition Z_vectors : VectorOps := {|
  scalar := Z;
  l2_distance := sq_dist;
  cosine_distance := neg_dot;
  scalar_le := Z.le;
  scalar_le_dec := _;
  scalar_le_total := _;
  scalar_le_trans := _
|}.

(** An embedding model for examples: 384 copies of the text's length. *)
Definition length_model : @EmbeddingModel Z_vectors :=
  @Build_EmbeddingModel Z_vectors
    (fun text => replicate 384 (Z.of_nat (String.length text)) : list Z).

(** Concrete inputs used by the examples further down. *)
Module Examples.

Definition env0 : Env :=
  {| utcnow_isoformat := "2025-01-01T00:00:00"; uuid4 := 12345%N |}.

Definition idle_link : @NATSAgentClient.NATS doc_codec :=
  {| NATSAgentClient.wire := []; NATSAgentClient.link_up := true |}.

Definition voice_offline : @NATSAgentClient.t doc_codec :=
  {| NATSAgentClient.service_name := "voice";
     NATSAgentClient.nc := idle_link;
     NATSAgentClient._connected := false |}.

Definition voice_online : @NATSAgentClient.t doc_codec :=
  {| NATSAgentClient.service_name := "voice";
     NATSAgentClient.nc := idle_link;
     NATSAgentClient._connected := true |}.

Definition empty_broker : @PulsarAgentClient.Broker doc_codec :=
  {| PulsarAgentClient.log := []; PulsarAgentClient.broker_up := true |}.

Definition brain_durable : @PulsarAgentClient.t doc_codec :=
  {| PulsarAgentClient.service_name := "brain";
     PulsarAgentClient.client := empty_broker;
     PulsarAgentClient.producers := ∅;
     PulsarAgentClient._connected := true |}.

Definition message_with (payload : doc_bytes)
  : @PulsarAgentClient.Message doc_codec :=
  {| PulsarAgentClient.msg_topic := "persistent://arc/events/conversations";
     PulsarAgentClient.msg_data := payload : @bytes doc_codec;
     PulsarAgentClient.msg_partition_key := None;
     PulsarAgentClient.msg_properties := ∅ |}.

(** A handler that always asks for an acknowledgement. *)
Definition always_true (_ : gmap string json)
    (_ : @PulsarAgentClient.Message doc_codec)
  : @PulsarAgentClient.outcome :=
  PulsarAgentClient.Returns (PyBool true).

(** A consumer on which every settle call goes through. *)
Definition steady_consumer
    (incoming : list (@PulsarAgentClient.received doc_codec))
  : @PulsarAgentClient.Consumer doc_codec :=
  {| PulsarAgentClient.deliveries := incoming;
     PulsarAgentClient.settles := fun _ _ => Ok tt |}.

(** A consumer whose [acknowledge] raises. *)
Definition ack_failing_consumer
    (incoming : list (@PulsarAgentClient.received doc_codec))
  : @PulsarAgentClient.Consumer doc_codec :=
  {| PulsarAgentClient.deliveries := incoming;
     PulsarAgentClient.settles := fun _ call =>
       match call with
       | PulsarAgentClient.Acknowledge _ =>
           Raise (Exn Exception "Pulsar error: AlreadyClosed")
       | PulsarAgentClient.NegativeAcknowledge _ => Ok tt
       end |}.

Definition turn (i : Z) (u txt : string)
  : @Database.Conversation Z_vectors :=
  {| Database.id := i; Database.user_id := u; Database.text := txt;
     Database.embedding := @encode Z_vectors length_model txt;
     Database.created_at := i |}.

Definition db_empty : @Database.t Z_vectors :=
  {| Database.conversations := [];
     Database.next_id := 1;
     Database.server_now := fun i => i;
     Database.reachable := true |}.

Definition db_down : @Database.t Z_vectors :=
  {| Database.conversations := [];
     Database.next_id := 1;
     Database.server_now := fun i => i;
     Database.reachable := false |}.

(** Two users who said the same thing, and a second turn of the first. *)
Definition db_two_users : @Database.t Z_vectors :=
  {| Database.conversations :=
       [turn 1 "u1" "hello"; turn 2 "u2" "hello"; turn 3 "u1" "hi"];
     Database.next_id := 4;
     Database.server_now := fun i => i;
     Database.reachable := true |}.

Definition sdk_turn (i : N) (u input : string) (e : list Z)
  : @Models.Conversation Z_vectors :=
  {| Models.id := i; Models.user_id := u;
     Models.agent_id := "arc-scarlett-voice";
     Models.room_name := None; Models.session_id := None;
     Models.turn_index := 0;
     Models.user_input := input; Models.agent_response := "ok";
     Models.embedding := Some (e : list (@scalar Z_vectors));
     Models.context_used := None; Models.llm_model := None;
     Models.llm_tokens_used := None; Models.stt_model := None;
     Models.tts_model := None; Models.stt_latency_ms := None;
     Models.llm_latency_ms := None; Models.tts_latency_ms := None;
     Models.total_latency_ms := None;
     Models.created_at := 0; Models.updated_at := 0 |}.

Definition llm_hi : Graph.llm_client :=
  fun _ => Ok (Graph.WithContent "Hi there!").

Definition llm_timeout : Graph.llm_client :=
  fun _ => Raise (Exn TimeoutError "timed out").

Definition world0 : @Deployment.World doc_codec Z_vectors :=
  {| Deployment.memory := db_empty; Deployment.durable := empty_broker |}.

Definition retrieved_nothing : gmap string Graph.value :=
  <["context" := Graph.VTexts []]> (Graph.initial_state "user-1" "Hello").

Definition plugin : SherlockLLM.t :=
  {| SherlockLLM.nats_url := "nats://arc-flash-pulse:4222";
     SherlockLLM.timeout := "5.0";
     SherlockLLM.user_id := "default_user";
     SherlockLLM.nc := false |}.

Definition silent_server : @SherlockLLM.Server doc_codec :=
  {| SherlockLLM.connect_result := Ok tt;
     SherlockLLM.request := fun _ _ => SherlockLLM.TimedOut |}.

End Examples.

(** ** Vocabulary of the statements *)

(** The subject test of the specification, prefix by prefix. *)
Definition starts_with_allowed_prefix (subject : string) : bool :=
  String.prefix "agent.voice." subject
  || String.prefix "agent.brain." subject
  || String.prefix "agent.tts." subject
  || String.prefix "agent.stt." subject
  || String.prefix "system.health." subject
  || String.prefix "system.service." subject.

(** The reply text the second node settles on. *)
Definition reply_of (r : result Graph.llm_response) : string :=
  match r with
  | Ok (Graph.WithContent c) => c
  | Ok (Graph.WithoutContent s) => s
  | Raise _ => Graph.FALLBACK_RESPONSE
  end.

(** The state after the first node of the graph, for an initial state. *)
Definition after_retrieval (u message : string) (texts : list string)
  : gmap string Graph.value :=
  Graph.apply_update
    (Graph.apply_update ∅ (Graph.initial_state u message))
    (<["context" := Graph.VTexts texts]>
       (Graph.apply_update ∅ (Graph.initial_state u message))).

Section StoreVocabulary.
Context `{EmbeddingModel}.

(** The row [save_conversation] builds. *)
Definition new_row (db : Database.t) (u txt : string) : Database.Conversation :=
  {| Database.id := Database.next_id db;
     Database.user_id := u;
     Database.text := txt;
     Database.embedding := encode txt;
     Database.created_at := Database.server_now db (Database.next_id db) |}.

(** The database after inserting a row. *)
Definition with_row (db : Database.t) (c : Database.Conversation) : Database.t :=
  {| Database.conversations := Database.conversations db ++ [c];
     Database.next_id := Database.next_id db + 1;
     Database.server_now := Database.server_now db;
     Database.reachable := Database.reachable db |}.
End StoreVocabulary.

(** ** Further operations of the messaging clients *)

(** nats_client.py: connection lifecycle and the convenience publishers. *)
Module NATSAgentClientOps.
Section Client.
Context `{JsonCodec}.

Definition set_connected (self : NATSAgentClient.t) (flag : bool)
  : NATSAgentClient.t :=
  {| NATSAgentClient.service_name := NATSAgentClient.service_name self;
     NATSAgentClient.nc := NATSAgentClient.nc self;
     NATSAgentClient._connected := flag |}.

(** [connect]: [dial] is what [nats.connect(...)] does when it is called. *)
Definition connect (self : NATSAgentClient.t)
    (dial : result NATSAgentClient.NATS) : result unit * NATSAgentClient.t :=
  if NATSAgentClient._connected self then (Ok tt, self)
  else
    match dial with
    | Ok conn =>
        (Ok tt, {| NATSAgentClient.service_name :=
                     NATSAgentClient.service_name self;
                   NATSAgentClient.nc := conn;
                   NATSAgentClient._connected := true |})
    | Raise e => (Raise e, self)
    end.

(** [disconnect]: [closing] is what [nc.drain()] followed by [nc.close()]
    does when it is called; a closed connection accepts nothing more. When
    closing raises, the flag is not reset. *)
Definition disconnect (self : NATSAgentClient.t) (closing : result unit)
  : result unit * NATSAgentClient.t :=
  if NATSAgentClient._connected self
  then
    match closing with
    | Ok _ =>
        (Ok tt,
         {| NATSAgentClient.service_name := NATSAgentClient.service_name self;
            NATSAgentClient.nc :=
              {| NATSAgentClient.wire :=
                   NATSAgentClient.wire (NATSAgentClient.nc self);
                 NATSAgentClient.link_up := false |};
            NATSAgentClient._connected := false |})
    | Raise e => (Raise e, self)
    end
  else (Ok tt, self).

Definition _disconnected_callback (self : NATSAgentClient.t)
  : NATSAgentClient.t := set_connected self false.

Definition _reconnected_callback (self : NATSAgentClient.t)
  : NATSAgentClient.t := set_connected self true.

Definition publish_track_published (self : NATSAgentClient.t) (env : Env)
    (room_name room_sid participant_sid participant_identity track_sid
       track_kind : string)
    (metadata : option (gmap string json)) (trace_id : option string)
  : result unit * NATSAgentClient.t :=
  NATSAgentClient.publish self env "agent.voice.track.published"
    {[ "event" := JStr "track_published";
       "room_name" := JStr room_name;
       "room_sid" := JStr room_sid;
       "participant_sid" := JStr participant_sid;
       "participant_identity" := JStr participant_identity;
       "track_sid" := JStr track_sid;
       "track_kind" := JStr track_kind;
       "track_source" := JStr "microphone";
       "metadata" := JObj (dict_or_empty metadata) ]}
    trace_id (Some "track_published").

Definition publish_session_started (self : NATSAgentClient.t) (env : Env)
    (user_id session_id room_name room_sid participant_sid agent_id : string)
    (trace_id : option string) : result unit * NATSAgentClient.t :=
  NATSAgentClient.publish self env "agent.voice.session.started"
    {[ "event" := JStr "session_started";
       "user_id" := JStr user_id;
       "session_id" := JStr session_id;
       "room_name" := JStr room_name;
       "room_sid" := JStr room_sid;
       "participant_sid" := JStr participant_sid;
       "agent_id" := JStr agent_id ]}
    trace_id (Some "session_started").

End Client.
End NATSAgentClientOps.

(** pulsar_client.py: [disconnect] and the topic wrappers. *)
Module PulsarAgentClientOps.
Section Client.
Context `{JsonCodec}.

(** [disconnect]: producers, consumers and the client are closed; errors
    of the producers and consumers are logged and dropped, [closing] is
    what [client.close()] does when it is called. The [producers]
    dictionary keeps its entries. *)
Definition disconnect (self : PulsarAgentClient.t) (closing : result unit)
  : result unit * PulsarAgentClient.t :=
  if negb (PulsarAgentClient._connected self) then (Ok tt, self)
  else
    match closing with
    | Ok _ =>
        (Ok tt,
         {| PulsarAgentClient.service_name :=
              PulsarAgentClient.service_name self;
            PulsarAgentClient.client :=
              {| PulsarAgentClient.log :=
                   PulsarAgentClient.log (PulsarAgentClient.client self);
                 PulsarAgentClient.broker_up := false |};
            PulsarAgentClient.producers := PulsarAgentClient.producers self;
            PulsarAgentClient._connected := false |})
    | Raise e => (Raise e, self)
    end.

Definition produce_analytics_event (self : PulsarAgentClient.t) (env : Env)
    (metric_type : string) (data : gmap string json)
    (trace_id : option string)
  : result PulsarAgentClient.MessageId * PulsarAgentClient.t :=
  PulsarAgentClient.produce self env
    ("persistent://" +:+ PulsarAgentClient.NAMESPACE_ANALYTICS +:+ "/" +:+
     metric_type)
    data None trace_id (Some ("analytics_" +:+ metric_type)) None.

Definition produce_audit_log (self : PulsarAgentClient.t) (env : Env)
    (user_id action resource : string) (data : gmap string json)
    (trace_id : option string)
  : result PulsarAgentClient.MessageId * PulsarAgentClient.t :=
  let audit_data : gmap string json :=
    (* {"user_id": ..., "action": ..., "resource": ..., **data} *)
    data ∪ {[ "user_id" := JStr user_id;
              "action" := JStr action;
              "resource" := JStr resource ]} in
  PulsarAgentClient.produce self env
    ("persistent://" +:+ PulsarAgentClient.NAMESPACE_AUDIT +:+ "/logs")
    audit_data (Some user_id) trace_id (Some "audit_log") None.

End Client.
End PulsarAgentClientOps.

(** ** services/arc-sherlock-brain/src/nats_handler.py and main.py *)

(** Truthiness of a decoded JSON value, [None] for a missing key. *)
Definition json_truthy (v : option json) : bool :=
  match v with
  | None | Some JNull => false
  | Some (JBool b) => b
  | Some (JNum n) => negb (n =? 0)
  | Some (JStr s) => negb (String.eqb s "")
  | Some (JList l) => match l with [] => false | _ => true end
  | Some (JObj m) => negb (bool_decide (dom m = ∅))
  end.

Module NatsHandler.
Section Handler.
Context `{JsonCodec} `{EmbeddingModel}.

(** The body of the [try] in [handle_brain_request]: the response payload,
    or the exception the [except] branch turns into an error payload.
    [user_id] and [text] are used at the type the payload documents: with a
    truthy value of another type the pass fails before anything is saved. *)
Definition brain_request_body (graph : Graph.StateGraph) (db : Database.t)
    (msg_data : bytes) (latency_ms : Z)
  : result (gmap string json) * Database.t :=
  match loads msg_data with
  | None => (Raise (Exn JSONDecodeError "Expecting value"), db)
  | Some (JObj payload) =>
      let user_id := payload !! "user_id" in
      let text := payload !! "text" in
      if negb (json_truthy user_id) || negb (json_truthy text)
      then (Raise (Exn ValueError "Missing required fields: user_id, text"), db)
      else
        match user_id, text with
        | Some (JStr u), Some (JStr t) =>
            match Graph.invoke_reasoning_graph graph db u t with
            | (Ok response_text, db') =>
                (Ok {[ "user_id" := JStr u;
                       "text" := JStr response_text;
                       "latency_ms" := JNum latency_ms ]}, db')
            | (Raise e, db') => (Raise e, db')
            end
        | _, _ => (Raise (Exn TypeError "user_id and text must be str"), db)
        end
  | Some _ =>
      (Raise (Exn AttributeError "object has no attribute 'get'"), db)
  end.

(** [handle_brain_request]: what [msg.respond] is given, and the store
    afterwards. [latency_ms] is the elapsed time read when the reply is
    built. *)
Definition handle_brain_request (graph : Graph.StateGraph) (db : Database.t)
    (msg_data : bytes) (latency_ms : Z) : bytes * Database.t :=
  match brain_request_body graph db msg_data latency_ms with
  | (Ok response_payload, db') => (dumps (JObj response_payload), db')
  | (Raise e, db') =>
      (dumps (JObj {[ "error" := JStr (exn_msg e);
                      "latency_ms" := JNum latency_ms ]}), db')
  end.

End Handler.
End NatsHandler.

Module Main.

Record ChatRequest := {
  req_user_id : string;
  req_text : string              (* Field(..., min_length=1) *)
}.

Record ChatResponse := {
  resp_user_id : string;
  resp_text : string;
  resp_latency_ms : Z
}.

Inductive http (A : Type) :=
| Http200 (body : A)
| HTTPException (status_code : Z) (detail : string).
Arguments Http200 {A} body.
Arguments HTTPException {A} status_code detail.

Section Api.
Context `{EmbeddingModel}.

(** The [/chat] endpoint on a validated request; [db] and [graph] are the
    module globals, [None] before start-up. *)
Definition chat (db : option Database.t) (graph : option Graph.StateGraph)
    (request : ChatRequest) (latency_ms : Z)
  : http ChatResponse * option Database.t :=
  match db, graph with
  | Some d, Some g =>
      match Graph.invoke_reasoning_graph g d
              (req_user_id request) (req_text request) with
      | (Ok response_text, d') =>
          (Http200 {| resp_user_id := req_user_id request;
                      resp_text := response_text;
                      resp_latency_ms := latency_ms |}, Some d')
      | (Raise e, d') =>
          (HTTPException 500 ("Reasoning error: " +:+ exn_msg e), Some d')
      end
  | _, _ => (HTTPException 503 "Service not initialized", db)
  end.

End Api.
End Main.

(** The brain service as the voice plugin's NATS server sees it: requests
    on [brain.request] are answered by [handle_brain_request]; nothing
    listens elsewhere. *)
Definition brain_server `{JsonCodec} `{EmbeddingModel}
    (graph : Graph.StateGraph) (db : Database.t) (latency_ms : Z)
  : SherlockLLM.Server :=
  {| SherlockLLM.connect_result := Ok tt;
     SherlockLLM.request := fun subject payload =>
       if String.eqb subject "brain.request"
       then SherlockLLM.Reply
              (fst (NatsHandler.handle_brain_request graph db payload
                      latency_ms))
       else SherlockLLM.RequestFailed (Exn Exception "no responders") |}.



(** The fields [user_id] and [text] of a request have the documented
    type: where one is present and truthy, it is a string. *)
Definition str_fields `{JsonCodec} (msg_data : bytes) : Prop :=
  forall (payload : gmap string json) (k : string) (v : json),
    loads msg_data = Some (JObj payload) ->
    k = "user_id" \/ k = "text" ->
    payload !! k = Some v ->
    json_truthy (Some v) = true ->
    exists s : string, v = JStr s.

(** A request the handler accepts: a JSON object with truthy [user_id] and
    [text]. *)
Definition well_formed_request `{JsonCodec} (msg_data : bytes) : Prop :=
  exists payload : gmap string json,
    loads msg_data = Some (JObj payload) /\
    json_truthy (payload !! "user_id") = true /\
    json_truthy (payload !! "text") = true.

(** The ids of a table are a primary key below the sequence. *)
Definition primary_key_ok `{EmbeddingModel} (db : Database.t) : Prop :=
  NoDup (Database.id <$> Database.conversations db) /\
  Forall (fun c => Database.id c < Database.next_id db)
         (Database.conversations db).

(** Further concrete inputs for the examples. *)
Module MoreExamples.

Definition brain_durable_offline : @PulsarAgentClient.t doc_codec :=
  {| PulsarAgentClient.service_name := "brain";
     PulsarAgentClient.client := Examples.empty_broker;
     PulsarAgentClient.producers := ∅;
     PulsarAgentClient._connected := false |}.

Definition hello_request : @bytes doc_codec :=
  Encoded (JObj {[ "user_id" := JStr "user-1"; "text" := JStr "Hello" ]}).

Definition sdk_session : list (@Models.Conversation Z_vectors) :=
  [ Examples.sdk_turn 7 "u2" "hello" [1; 2];
    Examples.sdk_turn 8 "u1" "hi" [2; 1];
    Examples.sdk_turn 9 "u1" "bye" [0; 1] ].

Definition not_json : @bytes doc_codec := Malformed "{user_id:".

(** An embedding model that answers texts of more than eight characters
    with a vector of the wrong dimension. *)
Definition ragged_model : @EmbeddingModel Z_vectors :=
  @Build_EmbeddingModel Z_vectors
    (fun text =>
       replicate (if (String.length text <=? 8)%nat then 384%nat else 3%nat)
                 (Z.of_nat (String.length text)) : list Z).


Definition greeter : @Graph.StateGraph Z_vectors :=
  @Graph.create_reasoning_graph Z_vectors length_model Examples.llm_hi.

End MoreExamples.

(** * Properties of the messaging fabric *)



Lemma or_else_given (t d : string) : t <> "" -> or_else (Some t) d = t.
Proof.
  intros Ht. simpl. destruct (String.eqb_spec t ""); congruence.
Qed.

Lemma truthy_given (e : string) : e <> "" -> truthy (Some e) = true.
Proof.
  intros He. unfold truthy. destruct (String.eqb_spec e ""); [congruence | reflexivity].
Qed.

Section Envelope.
Context `{JsonCodec}.

Lemma validate_subject_spec (self : NATSAgentClient.t) (subject : string) :
  NATSAgentClient._validate_subject self subject =
  if starts_with_allowed_prefix subject then Ok tt
  else Raise (Exn ValueError
                ("Invalid subject: " +:+ subject +:+
                 ". Must start with one of: " +:+
                 repr_str_list NATSAgentClient.VALID_SUBJECT_PREFIXES)).
Proof.
  unfold NATSAgentClient._validate_subject, starts_with_allowed_prefix.
  cbn [existsb NATSAgentClient.VALID_SUBJECT_PREFIXES].
  rewrite orb_false_r, !orb_assoc.
  by destruct (_ || _).
Qed.

(** The metadata part of an envelope, before the payload is merged in. *)
Lemma nats_envelope_lookup (self : NATSAgentClient.t) env data t e k :
  NATSAgentClient._create_message_envelope self env data t e !! k =
  match data !! k with
  | Some v => Some v
  | None =>
      if decide (k = "event_type") then
        (if truthy e then JStr <$> e else None)
      else if decide (k = "timestamp") then
        Some (JStr (utcnow_isoformat env +:+ "Z"))
      else if decide (k = "trace_id") then
        Some (JStr (or_else t (uuid_str (uuid4 env))))
      else if decide (k = "service") then
        Some (JStr (NATSAgentClient.service_name self))
      else None
  end.
Proof.
  unfold NATSAgentClient._create_message_envelope.
  destruct (data !! k) as [v|] eqn:Hk.
  { by apply lookup_union_Some_l. }
  rewrite lookup_union_r by done.
  destruct e as [e|]; [destruct (truthy (Some e)) eqn:Ht|].
  all: repeat case_decide; subst; simplify_map_eq; done.
Qed.

Lemma pulsar_envelope_lookup (self : PulsarAgentClient.t) env data t e k :
  PulsarAgentClient._create_message_envelope self env data t e !! k =
  match data !! k with
  | Some v => Some v
  | None =>
      if decide (k = "event_type") then
        (if truthy e then JStr <$> e else None)
      else if decide (k = "timestamp") then
        Some (JStr (utcnow_isoformat env +:+ "Z"))
      else if decide (k = "trace_id") then
        Some (JStr (or_else t (uuid_str (uuid4 env))))
      else if decide (k = "service") then
        Some (JStr (PulsarAgentClient.service_name self))
      else None
  end.
Proof.
  unfold PulsarAgentClient._create_message_envelope.
  destruct (data !! k) as [v|] eqn:Hk.
  { by apply lookup_union_Some_l. }
  rewrite lookup_union_r by done.
  destruct e as [e|]; [destruct (truthy (Some e)) eqn:Ht|].
  all: repeat case_decide; subst; simplify_map_eq; done.
Qed.

(** What a successful [publish] leaves on the wire. *)
Lemma publish_ok_inv (self self' : NATSAgentClient.t) env subject data t e :
  NATSAgentClient.publish self env subject data t e = (Ok tt, self') ->
  NATSAgentClient._connected self = true /\
  starts_with_allowed_prefix subject = true /\
  NATSAgentClient.service_name self' = NATSAgentClient.service_name self /\
  NATSAgentClient.wire (NATSAgentClient.nc self') =
    (NATSAgentClient.wire (NATSAgentClient.nc self) ++
     [(subject,
       dumps (JObj (NATSAgentClient._create_message_envelope
                      self env data t e)))])%list.
Proof.
  unfold NATSAgentClient.publish. rewrite validate_subject_spec.
  destruct (NATSAgentClient._connected self); simpl; [|discriminate].
  destruct (starts_with_allowed_prefix subject); [|discriminate].
  unfold NATSAgentClient.nc_publish.
  destruct (NATSAgentClient.link_up _); [|discriminate].
  intros [= <-]. done.
Qed.

End Envelope.


Section Messaging.
Context `{JsonCodec}.

(** C5, as amended. [publish] checks the connection first and the subject
    second. A subject outside the six prefixes never reaches the wire: on
    a connected client the call raises the subject error ([ValueError]),
    on a disconnected one the connection error. A subject with an allowed
    prefix passes validation, and [publish] never raises the subject error
    for it. *)
Theorem publish_subject_validation (self : NATSAgentClient.t) (env : Env)
    (subject : string) (data : gmap string json)
    (trace_id event_type : option string) :
  let outcome :=
    NATSAgentClient.publish self env subject data trace_id event_type in
  (starts_with_allowed_prefix subject = false ->
     snd outcome = self /\
     NATSAgentClient.wire (NATSAgentClient.nc (snd outcome))
       = NATSAgentClient.wire (NATSAgentClient.nc self) /\
     (NATSAgentClient._connected self = true ->
        exists msg, fst outcome = Raise (Exn ValueError msg)) /\
     (NATSAgentClient._connected self = false ->
        exists msg, fst outcome = Raise (Exn ConnectionError msg))) /\
  (starts_with_allowed_prefix subject = true ->
     NATSAgentClient._validate_subject self subject = Ok tt /\
     forall msg, fst outcome <> Raise (Exn ValueError msg)).
Proof.
  cbv zeta. unfold NATSAgentClient.publish.
  rewrite validate_subject_spec.
  split; intros ->.
  - destruct (NATSAgentClient._connected self); simpl.
    + repeat split; eauto; discriminate.
    + repeat split; eauto; discriminate.
  - split; [done|]. intros msg.
    destruct (NATSAgentClient._connected self); simpl; [|discriminate].
    unfold NATSAgentClient.nc_publish.
    destruct (NATSAgentClient.link_up _); simpl; discriminate.
Qed.

(** C7, as amended. Decoding the serialized envelope gives back the
    envelope: every field of the payload with the payload's value, and
    nothing but the payload outside the four metadata keys. The trace id
    and the event type passed to [_create_message_envelope] are recovered
    when they are non-empty and the payload has no field of that name;
    [message_handler] hands exactly this document to the callback. *)
Theorem envelope_roundtrip (self : NATSAgentClient.t) (env : Env)
    (p : gmap string json) (t e : string) :
  exists m : gmap string json,
    loads (dumps (JObj (NATSAgentClient._create_message_envelope
                          self env p (Some t) (Some e)))) = Some (JObj m) /\
    (forall k v, p !! k = Some v -> m !! k = Some v) /\
    (forall k, k <> "timestamp" -> k <> "trace_id" -> k <> "service" ->
               k <> "event_type" -> m !! k = p !! k) /\
    (t <> "" -> p !! "trace_id" = None -> m !! "trace_id" = Some (JStr t)) /\
    (e <> "" -> p !! "event_type" = None ->
       m !! "event_type" = Some (JStr e)) /\
    (forall (S : Type) (callback : gmap string json -> S -> result unit * S)
            (s : S),
       NATSAgentClient.message_handler callback
         (dumps (JObj (NATSAgentClient._create_message_envelope
                         self env p (Some t) (Some e)))) s
       = snd (callback m s)).
Proof.
  eexists. split; [apply loads_dumps|].
  split; [|split; [|split; [|split]]].
  - intros k v Hk. by rewrite nats_envelope_lookup, Hk.
  - intros k ? ? ? ?. rewrite nats_envelope_lookup.
    destruct (p !! k); [done|]. by repeat case_decide.
  - intros Ht Hp. rewrite nats_envelope_lookup, Hp.
    repeat case_decide; try done. by rewrite or_else_given.
  - intros He Hp. rewrite nats_envelope_lookup, Hp.
    repeat case_decide; try done. by rewrite truthy_given.
  - intros S callback s. unfold NATSAgentClient.message_handler.
    by rewrite loads_dumps.
Qed.


(** The heartbeat payload names the service itself, so the envelope of a
    heartbeat still carries the client's service name and a fresh trace
    id. *)
Lemma heartbeat_envelope (self self' : NATSAgentClient.t) (env : Env)
    (status : string) (metrics : option (gmap string json)) :
  NATSAgentClient.publish_heartbeat self env status metrics = (Ok tt, self') ->
  exists m : gmap string json,
    NATSAgentClient.wire (NATSAgentClient.nc self') =
      (NATSAgentClient.wire (NATSAgentClient.nc self) ++
       [("system.health.heartbeat", dumps (JObj m))])%list /\
    m !! "service" = Some (JStr (NATSAgentClient.service_name self)) /\
    m !! "trace_id" = Some (JStr (uuid_str (uuid4 env))) /\
    m !! "event_type" = Some (JStr "heartbeat").
Proof.
  unfold NATSAgentClient.publish_heartbeat. intros Hpub.
  apply publish_ok_inv in Hpub as (_ & _ & _ & Hwire).
  eexists. split; [exact Hwire|].
  rewrite !nats_envelope_lookup. by simplify_map_eq.
Qed.



End Messaging.



(** * Properties of the SQL building blocks *)

Section SqlFacts.
Context {A K : Type} (le : relation K) `{!RelDecision le}.

Lemma limit_ok (n : Z) (l r : list A) :
  Sql.limit n l = Ok r <-> 0 <= n /\ r = take (Z.to_nat n) l.
Proof.
  unfold Sql.limit. destruct (Z.ltb_spec n 0); split.
  - discriminate.
  - intros [? _]. lia.
  - intros [= <-]. split; [lia | done].
  - intros [_ ->]. done.
Qed.

Lemma limit_raise (n : Z) (l : list A) (e : exn) :
  Sql.limit n l = Raise e -> n < 0.
Proof.
  unfold Sql.limit. destruct (Z.ltb_spec n 0); [done | discriminate].
Qed.

Lemma order_by_perm (key : A -> K) (l : list A) :
  Sql.order_by le key l ≡ₚ l.
Proof. apply merge_sort_Permutation. Qed.

Lemma order_by_sorted `{!Total le, !Transitive le} (key : A -> K) (l : list A) :
  StronglySorted (fun a b => le (key a) (key b)) (Sql.order_by le key l).
Proof.
  apply StronglySorted_merge_sort.
  - intros a b c; apply transitivity.
  - intros a b; apply total; assumption.
Qed.

Lemma StronglySorted_take (R : relation A) (n : nat) (l : list A) :
  StronglySorted R l -> StronglySorted R (take n l).
Proof.
  intros Hl. rewrite <- (take_drop n l) in Hl.
  by apply StronglySorted_app_1_l in Hl.
Qed.

Lemma elem_of_limit_order_by (key : A -> K) (n : Z) (l r : list A) (x : A) :
  Sql.limit n (Sql.order_by le key l) = Ok r -> x ∈ r -> x ∈ l.
Proof.
  intros [_ ->]%limit_ok Hx.
  apply subseteq_take in Hx. by rewrite order_by_perm in Hx.
Qed.
End SqlFacts.

Lemma nulls_last_total {K} (le : relation K) `{!Total le} :
  Total (Sql.nulls_last le).
Proof. intros [x|] [y|]; simpl; [apply (total le) | auto ..]. Qed.

Lemma nulls_last_trans {K} (le : relation K) `{!Transitive le} :
  Transitive (Sql.nulls_last le).
Proof.
  intros [x|] [y|] [z|]; simpl; try tauto. apply transitivity.
Qed.

Lemma fmap_triple_id {A B C} (l : list (A * B * C)) :
  (fun row => (row.1.1, row.1.2, row.2)) <$> l = l.
Proof.
  induction l as [|[[a b] c] l IH]; [done|]. cbn. by rewrite IH.
Qed.

(** * Properties of the memory store *)

Section Store.
Context `{EmbeddingModel}.

Lemma session_ok {A} (db db' : Database.t) (body : Database.t -> result (A * Database.t)) (a : A) :
  Database.session db body = (Ok a, db') <->
  Database.reachable db = true /\ body db = Ok (a, db').
Proof.
  unfold Database.session.
  destruct (Database.reachable db); simpl.
  - destruct (body db) as [[a' d']|e]; split.
    + intros [= -> ->]. done.
    + intros [_ [= -> ->]]. done.
    + discriminate.
    + intros [_ ?]. discriminate.
  - split; [discriminate | intros [? _]; discriminate].
Qed.

(** A raising session leaves the database as it was (rollback). *)
Lemma session_raise {A} (db db' : Database.t) (body : Database.t -> result (A * Database.t)) (e : exn) :
  Database.session db body = (Raise e, db') -> db' = db.
Proof.
  unfold Database.session.
  destruct (Database.reachable db); simpl.
  - destruct (body db) as [[a' d']|e']; [discriminate|]. by intros [= _ <-].
  - by intros [= _ <-].
Qed.

Lemma get_context_ok (db db' : Database.t) (u q : string) (k : Z)
    (res : list (Z * string * scalar)) :
  Database.get_context db u q k = (Ok res, db') <->
  Database.reachable db = true /\ 0 <= k /\ db' = db /\
  res = take (Z.to_nat k)
          (Sql.order_by scalar_le (fun row => row.2)
             (Database.select_distances db u (encode q))).
Proof.
  unfold Database.get_context. rewrite session_ok.
  split.
  - intros [Hr Hbody]. split; [done|].
    destruct (Sql.limit k _) as [rows|e] eqn:Hl; simpl in Hbody; [|done].
    apply limit_ok in Hl as [Hk ->]. injection Hbody as <- <-.
    repeat split; [done|]. apply fmap_triple_id.
  - intros (Hr & Hk & -> & ->). split; [done|].
    destruct (Sql.limit k _) as [rows|e] eqn:Hl; simpl.
    + apply limit_ok in Hl as [_ ->]. by rewrite fmap_triple_id.
    + apply limit_raise in Hl. lia.
Qed.

Lemma get_context_raise (db db' : Database.t) (u q : string) (k : Z) (e : exn) :
  Database.get_context db u q k = (Raise e, db') -> db' = db.
Proof. apply session_raise. Qed.

(** The query returns whenever the server is reachable and the limit is
    not negative, and leaves the table alone. *)
Lemma get_context_returns (db : Database.t) (u q : string) (k : Z) :
  Database.reachable db = true -> 0 <= k ->
  exists res, Database.get_context db u q k = (Ok res, db).
Proof.
  intros Hr Hk. eexists. apply get_context_ok. eauto.
Qed.

Lemma elem_of_select_distances (db : Database.t) (u : string)
    (qe : list scalar) (i : Z) (txt : string) (d : scalar) :
  (i, txt, d) ∈ Database.select_distances db u qe <->
  exists c, c ∈ Database.conversations db /\ Database.user_id c = u /\
            Database.id c = i /\ Database.text c = txt /\
            d = l2_distance (Database.embedding c) qe.
Proof.
  unfold Database.select_distances. rewrite list_elem_of_fmap. split.
  - intros (c & [= -> -> ->] & [Hu Hc]%list_elem_of_filter). eauto 10.
  - intros (c & Hc & Hu & <- & <- & ->). exists c. split; [done|].
    by apply list_elem_of_filter.
Qed.

Lemma NoDup_fmap_eq {A B} (f : A -> B) (l : list A) (x y : A) :
  NoDup (f <$> l) -> x ∈ l -> y ∈ l -> f x = f y -> x = y.
Proof.
  induction l as [|a l IH]; [by intros _ ?%elem_of_nil|].
  rewrite fmap_cons, NoDup_cons, !elem_of_cons.
  intros [Ha Hl] [->|Hx] [->|Hy] Hf; auto.
  - exfalso. apply Ha. rewrite Hf. by apply list_elem_of_fmap_2.
  - exfalso. apply Ha. rewrite <- Hf. by apply list_elem_of_fmap_2.
Qed.

Lemma get_context_rows (db db' : Database.t) (u q : string) (k : Z)
    (res : list (Z * string * scalar)) (row : Z * string * scalar) :
  Database.get_context db u q k = (Ok res, db') ->
  row ∈ res -> row ∈ Database.select_distances db u (encode q).
Proof.
  intros (_ & _ & _ & ->)%get_context_ok Hrow%subseteq_take.
  by rewrite order_by_perm in Hrow.
Qed.

(** C9. A call [get_context(db, user_id, query_text, top_k)] that returns
    gives at most [top_k] rows, in ascending order of their distance to
    the query; each is a row of that user with its L2 distance, and when
    the user has no more than [top_k] stored turns (in particular fewer)
    all of them are returned. *)
Theorem get_context_top_k (db db' : Database.t) (u q : string) (k : Z)
    (res : list (Z * string * scalar)) :
  Database.get_context db u q k = (Ok res, db') ->
  Z.of_nat (length res) <= k /\
  StronglySorted (fun r1 r2 => scalar_le r1.2 r2.2) res /\
  (forall row, row ∈ res ->
     row ∈ Database.select_distances db u (encode q)) /\
  (Z.of_nat (length (filter (fun c => Database.user_id c = u)
                            (Database.conversations db))) <= k ->
   res ≡ₚ Database.select_distances db u (encode q)).
Proof.
  intros (_ & Hk & _ & ->)%get_context_ok.
  split; [|split; [|split]].
  - rewrite length_take. lia.
  - apply StronglySorted_take, order_by_sorted; apply _.
  - intros row Hrow%subseteq_take. by rewrite order_by_perm in Hrow.
  - intros Hlen. rewrite take_ge; [apply order_by_perm|].
    rewrite order_by_perm. unfold Database.select_distances.
    rewrite length_fmap. lia.
Qed.

(** C1, as amended. Every row [get_context] returns is a stored row of the
    user asked for (and, ids being a primary key, no stored row with a
    returned id belongs to anyone else); the same holds for the rows of
    [get_recent_conversations]. [find_similar_conversations] returns only
    rows of [user_id] when that argument is a non-empty string. *)
Theorem retrieval_isolation :
  (forall (db db' : Database.t) (u q : string) (k : Z)
          (res : list (Z * string * scalar)),
     Database.get_context db u q k = (Ok res, db') ->
     forall (i : Z) (txt : string) (d : scalar),
       (i, txt, d) ∈ res ->
       (exists c, c ∈ Database.conversations db /\
                  Database.user_id c = u /\ Database.id c = i /\
                  Database.text c = txt /\
                  d = l2_distance (Database.embedding c) (encode q)) /\
       (NoDup (Database.id <$> Database.conversations db) ->
        forall c, c ∈ Database.conversations db -> Database.id c = i ->
                  Database.user_id c = u)) /\
  (forall (db db' : Database.t) (u : string) (limit : Z)
          (res : list (Z * string)),
     Database.get_recent_conversations db u limit = (Ok res, db') ->
     forall (i : Z) (txt : string),
       (i, txt) ∈ res ->
       exists c, c ∈ Database.conversations db /\
                 Database.user_id c = u /\ Database.id c = i /\
                 Database.text c = txt) /\
  (forall (session : Models.Session) (query_embedding : list scalar)
          (limit : Z) (u : string) (res : list Models.Conversation),
     u <> "" ->
     Models.find_similar_conversations session query_embedding limit (Some u)
       = Ok res ->
     forall c, c ∈ res -> c ∈ session /\ Models.user_id c = u).
Proof.
  split; [|split].
  - intros db db' u q k res Hget i txt d Hin.
    eapply get_context_rows, elem_of_select_distances in Hin; [|exact Hget].
    destruct Hin
      as (c & Hc & Hu & Hi & Ht & Hd).
    split; [by eauto 10|].
    intros Hnodup c' Hc' Hi'.
    assert (c' = c) as -> by (eapply NoDup_fmap_eq; eauto; congruence).
    done.
  - intros db db' u limit res Hget i txt Hin.
    unfold Database.get_recent_conversations in Hget.
    apply session_ok in Hget as [_ Hbody].
    destruct (Sql.limit limit _) as [rows|e] eqn:Hl; [|done].
    injection Hbody as <- <-.
    apply list_elem_of_fmap in Hin as (c & [= -> ->] & Hc).
    eapply elem_of_limit_order_by in Hl; [|exact Hc].
    apply list_elem_of_filter in Hl as [? ?]. eauto.
  - intros session qe limit u res Hu Hfind c Hc.
    unfold Models.find_similar_conversations in Hfind.
    rewrite truthy_given in Hfind by done.
    eapply elem_of_limit_order_by in Hfind; [|exact Hc].
    apply list_elem_of_filter in Hfind as [? ?]. done.
Qed.

Lemma check_columns_ok (c : Database.Conversation) :
  (String.length (Database.user_id c) <= 255)%nat ->
  length (Database.embedding c) = Database.EMBEDDING_DIM ->
  Database.check_columns c = Ok tt.
Proof.
  intros Hu Hdim. unfold Database.check_columns.
  destruct (Nat.ltb_spec 255 (String.length (Database.user_id c))); [lia|].
  by rewrite Hdim, Nat.eqb_refl.
Qed.

Lemma check_columns_raise (c : Database.Conversation) :
  (255 < String.length (Database.user_id c))%nat \/
  length (Database.embedding c) <> Database.EMBEDDING_DIM ->
  exists msg, Database.check_columns c = Raise (Exn DatabaseError msg).
Proof.
  intros Hbad. unfold Database.check_columns.
  destruct (Nat.ltb_spec 255 (String.length (Database.user_id c)));
    [eauto|].
  destruct (Nat.eqb_spec (length (Database.embedding c))
              Database.EMBEDDING_DIM); [|cbn [negb]; eauto].
  destruct Hbad; [lia | done].
Qed.

Lemma save_conversation_ok (db db' : Database.t) (u txt : string) (i : Z) :
  Database.save_conversation db u txt = (Ok i, db') <->
  Database.reachable db = true /\
  Database.check_columns (new_row db u txt) = Ok tt /\
  i = Database.next_id db /\
  db' = with_row db (new_row db u txt).
Proof.
  unfold Database.save_conversation. rewrite session_ok.
  fold (new_row db u txt).
  destruct (Database.check_columns (new_row db u txt)) as [[]|e]; cbn.
  - split.
    + intros [Hr [= <- <-]]. done.
    + intros (Hr & _ & -> & ->). done.
  - split; [intros [_ ?]; discriminate | intros (_ & ? & _); discriminate].
Qed.

(** C4, as amended. [save_conversation(db, user_id, text)] computes the
    embedding from the text. With the server reachable, a [user_id] within
    the column width and a 384-dimensional embedding, it appends one new
    row under the next id, whatever rows the table already holds: there is
    no duplicate check. An embedding of another dimension is rejected with
    a database error. Whenever the call raises, the table is unchanged. *)
Theorem save_conversation_insert (db : Database.t) (u txt : string) :
  (Database.reachable db = true ->
   (String.length u <= 255)%nat ->
   length (encode txt) = Database.EMBEDDING_DIM ->
   Database.save_conversation db u txt =
     (Ok (Database.next_id db),
      {| Database.conversations :=
           Database.conversations db ++
           [ {| Database.id := Database.next_id db;
                Database.user_id := u;
                Database.text := txt;
                Database.embedding := encode txt;
                Database.created_at :=
                  Database.server_now db (Database.next_id db) |} ];
         Database.next_id := Database.next_id db + 1;
         Database.server_now := Database.server_now db;
         Database.reachable := true |})) /\
  (length (encode txt) <> Database.EMBEDDING_DIM ->
   exists msg,
     Database.save_conversation db u txt
       = (Raise (Exn DatabaseError msg), db)) /\
  (forall e db', Database.save_conversation db u txt = (Raise e, db') ->
                 db' = db).
Proof.
  unfold Database.save_conversation. split; [|split].
  - intros Hr Hu Hdim. unfold Database.session.
    rewrite Hr, check_columns_ok by done. reflexivity.
  - intros Hdim. unfold Database.session.
    destruct (Database.reachable db); cbn [negb]; [|eauto].
    edestruct check_columns_raise as [msg ->]; [|cbn; eauto].
    by right.
  - intros e db'. apply session_raise.
Qed.
End Store.


(** * Properties of the reasoning workflow *)

Section Workflow.
Context `{EmbeddingModel}.

Lemma generate_response_node_ok (state : gmap string Graph.value)
    (llm : Graph.llm_client) (u : string) (msgs : list Graph.BaseMessage)
    (ctx : list string) :
  state !! "user_id" = Some (Graph.VStr u) ->
  state !! "messages" = Some (Graph.VMessages msgs) ->
  state !! "context" = Some (Graph.VTexts ctx) ->
  Graph.generate_response_node state llm =
    Ok (<["messages" :=
            Graph.VMessages
              (msgs ++ [Graph.AIMessage
                          (reply_of (llm (Graph.format_messages ctx msgs)))])]>
          (<["final_response" :=
               Graph.VStr (reply_of (llm (Graph.format_messages ctx msgs)))]>
             state)).
Proof.
  intros Hu Hm Hc.
  unfold Graph.generate_response_node, Graph.get_user_id, Graph.get_messages.
  rewrite Hu, Hm, Hc. cbn [bind]. unfold reply_of.
  by destruct (llm _) as [[]|].
Qed.

Lemma retrieve_context_node_run (state : gmap string Graph.value)
    (db : Database.t) (u : string) (msgs : list Graph.BaseMessage) :
  state !! "user_id" = Some (Graph.VStr u) ->
  state !! "messages" = Some (Graph.VMessages msgs) ->
  Graph.retrieve_context_node state db =
    match Database.get_context db u
            (match last msgs with
             | Some m => Graph.content m
             | None => ""
             end) 5 with
    | (Raise e, db') => (Raise e, db')
    | (Ok rows, db') =>
        (Ok (<["context" := Graph.VTexts ((fun r => r.1.2) <$> rows)]> state),
         db')
    end.
Proof.
  intros Hu Hm.
  unfold Graph.retrieve_context_node, Graph.get_user_id, Graph.get_messages.
  by rewrite Hu, Hm.
Qed.

Lemma graph_run (llm : Graph.llm_client) (db : Database.t)
    (u message : string) :
  Graph.create_reasoning_graph llm (Graph.initial_state u message) db =
    match Database.get_context db u message 5 with
    | (Raise e, db') => (Raise e, db')
    | (Ok rows, db') =>
        let texts := (fun r => r.1.2) <$> rows in
        let state1 := after_retrieval u message texts in
        let twice := [Graph.HumanMessage message; Graph.HumanMessage message] in
        let reply := reply_of (llm (Graph.format_messages texts twice)) in
        (Ok (Graph.apply_update state1
               (<["messages" :=
                    Graph.VMessages (twice ++ [Graph.AIMessage reply])]>
                  (<["final_response" := Graph.VStr reply]> state1))),
         db')
    end.
Proof.
  unfold Graph.create_reasoning_graph.
  rewrite (retrieve_context_node_run _ _ u [Graph.HumanMessage message])
    by (by vm_compute).
  cbn [last Graph.content].
  destruct (Database.get_context db u message 5) as [[rows|e] db']; [|done].
  cbv zeta. fold (after_retrieval u message ((fun r => r.1.2) <$> rows)).
  rewrite (generate_response_node_ok _ _ u
             [Graph.HumanMessage message; Graph.HumanMessage message]
             ((fun r => r.1.2) <$> rows)) by (by vm_compute).
  done.
Qed.

(** What the final state of a run holds under the two keys the claims
    speak of. *)
Lemma final_state_lookup (u message : string) (texts : list string)
    (reply : string) :
  let state1 := after_retrieval u message texts in
  let twice := [Graph.HumanMessage message; Graph.HumanMessage message] in
  let final :=
    Graph.apply_update state1
      (<["messages" := Graph.VMessages (twice ++ [Graph.AIMessage reply])]>
         (<["final_response" := Graph.VStr reply]> state1)) in
  final !! "final_response" = Some (Graph.VStr reply) /\
  final !! "messages" =
    Some (Graph.VMessages
            ((twice ++ twice) ++ [Graph.AIMessage reply])) /\
  final !! "reasoning_degraded" = None.
Proof. by vm_compute. Qed.

(** C2, as amended. After a successful reasoning pass the reply is the
    last of the final state's messages and its [final_response]; the user
    message and the reply have been appended to the memory store, in that
    order, under the next two ids; the durable bus is as it was: the pass
    publishes no event. *)
Theorem reasoning_pass_effects `{JsonCodec} (w w' : Deployment.World)
    (llm : Graph.llm_client) (u message reply : string) :
  Deployment.invoke_reasoning_graph w (Graph.create_reasoning_graph llm)
    u message = (Ok reply, w') ->
  exists (final_state : gmap string Graph.value)
         (earlier : list Graph.BaseMessage),
    Graph.create_reasoning_graph llm (Graph.initial_state u message)
      (Deployment.memory w) = (Ok final_state, Deployment.memory w) /\
    final_state !! "final_response" = Some (Graph.VStr reply) /\
    final_state !! "messages"
      = Some (Graph.VMessages (earlier ++ [Graph.AIMessage reply])) /\
    Database.conversations (Deployment.memory w') =
      (Database.conversations (Deployment.memory w) ++
       [ {| Database.id := Database.next_id (Deployment.memory w);
            Database.user_id := u; Database.text := message;
            Database.embedding := encode message;
            Database.created_at :=
              Database.server_now (Deployment.memory w)
                (Database.next_id (Deployment.memory w)) |};
         {| Database.id := Database.next_id (Deployment.memory w) + 1;
            Database.user_id := u; Database.text := reply;
            Database.embedding := encode reply;
            Database.created_at :=
              Database.server_now (Deployment.memory w)
                (Database.next_id (Deployment.memory w) + 1) |} ])%list /\
    Deployment.durable w' = Deployment.durable w.
Proof.
  unfold Deployment.invoke_reasoning_graph, Graph.invoke_reasoning_graph.
  rewrite graph_run.
  destruct (Database.get_context _ u message 5) as [[rows|e] db1] eqn:Hctx;
    [|by intros [= ]].
  apply get_context_ok in Hctx as (_ & _ & -> & _).
  cbv zeta.
  set (texts := (fun r => r.1.2) <$> rows).
  set (r := reply_of _).
  destruct (final_state_lookup u message texts r) as (Hfinal & Hmsgs & _).
  cbv zeta in Hfinal, Hmsgs. rewrite Hfinal.
  destruct (Database.save_conversation _ u message) as [[i1|e1] db2] eqn:Hs1;
    [|by intros [= ]].
  destruct (Database.save_conversation db2 u r) as [[i2|e2] db3] eqn:Hs2;
    [|by intros [= ]].
  intros [= <- <-]. cbn.
  apply save_conversation_ok in Hs1 as (_ & _ & _ & ->).
  apply save_conversation_ok in Hs2 as (_ & _ & _ & ->).
  eexists _, _. split; [reflexivity|]. split; [exact Hfinal|].
  split; [exact Hmsgs|]. split; [|done].
  cbn. by rewrite <- app_assoc.
Qed.

(** C3, as amended. When the LLM call raises (a timeout included), the
    [generate_response] node returns normally with the fixed apology as
    [final_response] and as the last message, and changes no other key of
    the state: it sets no [reasoning_degraded] mark. The voice plugin's
    [chat] answers a failed brain call with the same fixed apology. *)
Theorem llm_failure_fallback :
  (forall (state : gmap string Graph.value) (llm : Graph.llm_client)
          (u : string) (msgs : list Graph.BaseMessage) (ctx : list string)
          (e : exn),
     state !! "user_id" = Some (Graph.VStr u) ->
     state !! "messages" = Some (Graph.VMessages msgs) ->
     state !! "context" = Some (Graph.VTexts ctx) ->
     llm (Graph.format_messages ctx msgs) = Raise e ->
     exists state' : gmap string Graph.value,
       Graph.generate_response_node state llm = Ok state' /\
       state' !! "final_response" =
         Some (Graph.VStr
                 "I apologize, but I'm having trouble processing your request right now.") /\
       state' !! "messages" =
         Some (Graph.VMessages
                 (msgs ++
                  [Graph.AIMessage
                     "I apologize, but I'm having trouble processing your request right now."])) /\
       (forall k, k <> "final_response" -> k <> "messages" ->
                  state' !! k = state !! k)) /\
  (forall (codec : JsonCodec) (py_str : json -> string)
          (self self' : SherlockLLM.t) (srv : SherlockLLM.Server)
          (chat_ctx : list SherlockLLM.ChatMessage) (e : exn),
     SherlockLLM._call_brain py_str self srv
       (SherlockLLM._extract_latest_message chat_ctx) = (Raise e, self') ->
     SherlockLLM.chat py_str self srv chat_ctx =
       ({| SherlockLLM.response_text :=
             JStr "I apologize, but I'm having trouble processing your request right now.";
           SherlockLLM.request_text :=
             SherlockLLM._extract_latest_message chat_ctx |}, self')).
Proof.
  split.
  - intros state llm u msgs ctx e Hu Hm Hc Hllm.
    eexists. split; [by apply (generate_response_node_ok _ _ u msgs ctx)|].
    rewrite Hllm. cbn [reply_of].
    split; [by simplify_map_eq|]. split; [by simplify_map_eq|].
    intros k ? ?. by simplify_map_eq.
  - intros codec py_str self self' srv chat_ctx e Hcall.
    unfold SherlockLLM.chat. by rewrite Hcall.
Qed.

(** C6, as amended. When the retrieval query raises, the
    [retrieve_context] node raises the same exception, and so does
    [invoke_reasoning_graph]: no reply is produced and the store is
    unchanged. The context is the empty list when the query succeeds
    without rows. *)
Theorem retrieval_failure_propagates :
  (forall (state : gmap string Graph.value) (db db' : Database.t)
          (u : string) (msgs : list Graph.BaseMessage) (e : exn),
     state !! "user_id" = Some (Graph.VStr u) ->
     state !! "messages" = Some (Graph.VMessages msgs) ->
     Database.get_context db u
       (match last msgs with Some m => Graph.content m | None => "" end) 5
       = (Raise e, db') ->
     Graph.retrieve_context_node state db = (Raise e, db)) /\
  (forall (llm : Graph.llm_client) (db db' : Database.t)
          (u message : string) (e : exn),
     Database.get_context db u message 5 = (Raise e, db') ->
     Graph.invoke_reasoning_graph (Graph.create_reasoning_graph llm)
       db u message = (Raise e, db)) /\
  (forall (state : gmap string Graph.value) (db db' : Database.t)
          (u : string) (msgs : list Graph.BaseMessage),
     state !! "user_id" = Some (Graph.VStr u) ->
     state !! "messages" = Some (Graph.VMessages msgs) ->
     Database.get_context db u
       (match last msgs with Some m => Graph.content m | None => "" end) 5
       = (Ok [], db') ->
     Graph.retrieve_context_node state db
       = (Ok (<["context" := Graph.VTexts []]> state), db)).
Proof.
  split; [|split].
  - intros state db db' u msgs e Hu Hm Hctx.
    rewrite (retrieve_context_node_run _ _ u msgs) by done.
    rewrite Hctx. by apply get_context_raise in Hctx as ->.
  - intros llm db db' u message e Hctx.
    unfold Graph.invoke_reasoning_graph. rewrite graph_run, Hctx.
    by apply get_context_raise in Hctx as ->.
  - intros state db db' u msgs Hu Hm Hctx.
    rewrite (retrieve_context_node_run _ _ u msgs) by done.
    rewrite Hctx. by apply get_context_ok in Hctx as (_ & _ & -> & _).
Qed.
End Workflow.

#[local] Set Warnings "-clear-no-such-hyp".

(** * Further properties of the messaging clients *)

Section MessagingOps.
Context `{JsonCodec}.

(** X1. [connect] on a connected client changes nothing and does not dial;
    a successful [connect] leaves the client connected, so a second one is
    a no-op; a failed dial re-raises and leaves the client as it was. *)
Theorem nats_connect_idempotent (self : NATSAgentClient.t)
    (dial dial' : result NATSAgentClient.NATS) :
  (NATSAgentClient._connected self = true ->
     NATSAgentClientOps.connect self dial = (Ok tt, self)) /\
  (fst (NATSAgentClientOps.connect self dial) = Ok tt ->
     NATSAgentClient._connected (snd (NATSAgentClientOps.connect self dial))
       = true /\
     NATSAgentClientOps.connect (snd (NATSAgentClientOps.connect self dial))
       dial' = (Ok tt, snd (NATSAgentClientOps.connect self dial))) /\
  (forall e, NATSAgentClient._connected self = false -> dial = Raise e ->
     NATSAgentClientOps.connect self dial = (Raise e, self)).
Proof.
  unfold NATSAgentClientOps.connect. split; [|split].
  - by intros ->.
  - destruct (NATSAgentClient._connected self) eqn:Hc; cbn.
    + intros _. by rewrite Hc.
    + destruct dial as [conn|e]; cbn; [done | discriminate].
  - by intros e -> ->.
Qed.

(** X2. After a [disconnect] that returned, or after the connection
    reported its loss, every [publish] raises the connection error and puts
    nothing on the wire; when a lost connection reports back, the client is
    as before. *)
Theorem nats_publish_after_disconnect (self : NATSAgentClient.t) (env : Env)
    (closing : result unit) (subject : string) (data : gmap string json)
    (trace_id event_type : option string) :
  (forall c,
     NATSAgentClientOps.disconnect self closing = (Ok tt, c) \/
     c = NATSAgentClientOps._disconnected_callback self ->
     fst (NATSAgentClient.publish c env subject data trace_id event_type) =
       Raise (Exn ConnectionError
                (NATSAgentClient.service_name self +:+
                 ": Not connected to NATS")) /\
     NATSAgentClient.wire
       (NATSAgentClient.nc
          (snd (NATSAgentClient.publish c env subject data trace_id
                  event_type)))
       = NATSAgentClient.wire (NATSAgentClient.nc self)) /\
  (NATSAgentClient._connected self = true ->
     NATSAgentClientOps._reconnected_callback
       (NATSAgentClientOps._disconnected_callback self) = self).
Proof.
  split.
  - intros c [Hd | ->].
    + unfold NATSAgentClientOps.disconnect in Hd.
      unfold NATSAgentClient.publish.
      destruct (NATSAgentClient._connected self) eqn:Hc.
      * destruct closing as [[]|e]; [|discriminate].
        by injection Hd as <-.
      * injection Hd as <-. by rewrite Hc.
    + done.
  - intros Hc. destruct self as [name conn flag]. cbn in Hc. by subst.
Qed.

(** X3. [publish] is all or nothing: it either returns and has put exactly
    one message, on the given subject, on the wire, or raises and leaves
    the client exactly as it was. *)
Theorem nats_publish_all_or_nothing (self : NATSAgentClient.t) (env : Env)
    (subject : string) (data : gmap string json)
    (trace_id event_type : option string) :
  (exists (self' : NATSAgentClient.t) (payload : bytes),
     NATSAgentClient.publish self env subject data trace_id event_type
       = (Ok tt, self') /\
     NATSAgentClient.wire (NATSAgentClient.nc self') =
       (NATSAgentClient.wire (NATSAgentClient.nc self)
        ++ [(subject, payload)])%list /\
     NATSAgentClient._connected self' = true /\
     NATSAgentClient.service_name self' = NATSAgentClient.service_name self) \/
  (exists e,
     NATSAgentClient.publish self env subject data trace_id event_type
       = (Raise e, self)).
Proof.
  unfold NATSAgentClient.publish.
  destruct (NATSAgentClient._connected self) eqn:Hc; cbn; [|eauto].
  destruct (NATSAgentClient._validate_subject self subject) as [[]|e];
    [|eauto].
  unfold NATSAgentClient.nc_publish.
  destruct (NATSAgentClient.link_up _); [|eauto].
  left. eexists _, _. split; [reflexivity|]. done.
Qed.

(** X4. On a connected client with a working link the convenience
    publishers always get through: each puts one envelope on its fixed
    subject, carrying the event type, the client's service name, the given
    (or a fresh) trace id, and the fields of the event. *)
Theorem nats_convenience_publishers (self : NATSAgentClient.t) (env : Env)
    (trace_id : option string) :
  NATSAgentClient._connected self = true ->
  NATSAgentClient.link_up (NATSAgentClient.nc self) = true ->
  (forall user_id session_id room_name room_sid participant_sid agent_id,
     exists (self' : NATSAgentClient.t) (m : gmap string json),
       NATSAgentClientOps.publish_session_started self env user_id session_id
         room_name room_sid participant_sid agent_id trace_id = (Ok tt, self') /\
       NATSAgentClient.wire (NATSAgentClient.nc self') =
         (NATSAgentClient.wire (NATSAgentClient.nc self)
          ++ [("agent.voice.session.started", dumps (JObj m))])%list /\
       m !! "event_type" = Some (JStr "session_started") /\
       m !! "user_id" = Some (JStr user_id) /\
       m !! "session_id" = Some (JStr session_id) /\
       m !! "agent_id" = Some (JStr agent_id) /\
       m !! "service" = Some (JStr (NATSAgentClient.service_name self)) /\
       m !! "trace_id"
         = Some (JStr (or_else trace_id (uuid_str (uuid4 env))))) /\
  (forall room_name room_sid participant_sid participant_identity track_sid
          track_kind metadata,
     exists (self' : NATSAgentClient.t) (m : gmap string json),
       NATSAgentClientOps.publish_track_published self env room_name room_sid
         participant_sid participant_identity track_sid track_kind metadata
         trace_id = (Ok tt, self') /\
       NATSAgentClient.wire (NATSAgentClient.nc self') =
         (NATSAgentClient.wire (NATSAgentClient.nc self)
          ++ [("agent.voice.track.published", dumps (JObj m))])%list /\
       m !! "event_type" = Some (JStr "track_published") /\
       m !! "track_sid" = Some (JStr track_sid) /\
       m !! "track_source" = Some (JStr "microphone") /\
       m !! "metadata" = Some (JObj (dict_or_empty metadata)) /\
       m !! "service" = Some (JStr (NATSAgentClient.service_name self)) /\
       m !! "trace_id"
         = Some (JStr (or_else trace_id (uuid_str (uuid4 env))))) /\
  (forall status metrics,
     exists (self' : NATSAgentClient.t) (m : gmap string json),
       NATSAgentClient.publish_heartbeat self env status metrics
         = (Ok tt, self') /\
       NATSAgentClient.wire (NATSAgentClient.nc self') =
         (NATSAgentClient.wire (NATSAgentClient.nc self)
          ++ [("system.health.heartbeat", dumps (JObj m))])%list /\
       m !! "event_type" = Some (JStr "heartbeat") /\
       m !! "status" = Some (JStr status) /\
       m !! "service" = Some (JStr (NATSAgentClient.service_name self)) /\
       m !! "trace_id" = Some (JStr (uuid_str (uuid4 env)))).
Proof.
  intros Hc Hl.
  assert (Hpub : forall subject data e,
             starts_with_allowed_prefix subject = true ->
             exists self',
               NATSAgentClient.publish self env subject data trace_id e
                 = (Ok tt, self') /\
               NATSAgentClient.wire (NATSAgentClient.nc self') =
                 (NATSAgentClient.wire (NATSAgentClient.nc self)
                  ++ [(subject,
                       dumps (JObj (NATSAgentClient._create_message_envelope
                                      self env data trace_id e)))])%list).
  { intros subject data e Hs. unfold NATSAgentClient.publish.
    rewrite Hc, validate_subject_spec, Hs. cbn.
    unfold NATSAgentClient.nc_publish. rewrite Hl.
    eexists. split; [reflexivity|]. done. }
  split; [|split].
  - intros user_id session_id room_name room_sid participant_sid agent_id.
    unfold NATSAgentClientOps.publish_session_started.
    edestruct Hpub as (self' & -> & Hw); [reflexivity|].
    eexists _, _. split; [reflexivity|]. split; [exact Hw|].
    rewrite !nats_envelope_lookup. by simplify_map_eq.
  - intros room_name room_sid participant_sid participant_identity track_sid
      track_kind metadata.
    unfold NATSAgentClientOps.publish_track_published.
    edestruct Hpub as (self' & -> & Hw); [reflexivity|].
    eexists _, _. split; [reflexivity|]. split; [exact Hw|].
    rewrite !nats_envelope_lookup. by simplify_map_eq.
  - intros status metrics. unfold NATSAgentClient.publish_heartbeat.
    unfold NATSAgentClient.publish.
    rewrite Hc, validate_subject_spec. cbn.
    unfold NATSAgentClient.nc_publish. rewrite Hl.
    eexists _, _. split; [reflexivity|]. split; [reflexivity|].
    rewrite !nats_envelope_lookup. by simplify_map_eq.
Qed.

End MessagingOps.

Section DurableOps.
Context `{JsonCodec}.

(** The message [produce] hands to the producer. *)
Lemma produce_ok_message (self self' : PulsarAgentClient.t) (env : Env)
    (topic : string) (data : gmap string json)
    (key t e : option string) (props : option (gmap string json))
    (msg_id : PulsarAgentClient.MessageId) :
  PulsarAgentClient.produce self env topic data key t e props
    = (Ok msg_id, self') ->
  let envelope :=
    PulsarAgentClient._create_message_envelope self env data t e in
  let base :=
    <["service" := JStr (PulsarAgentClient.service_name self)]>
      (<["trace_id" := default JNull (envelope !! "trace_id")]>
         (dict_or_empty props)) in
  PulsarAgentClient.log (PulsarAgentClient.client self') =
    (PulsarAgentClient.log (PulsarAgentClient.client self) ++
     [ {| PulsarAgentClient.msg_topic := topic;
          PulsarAgentClient.msg_data := dumps (JObj envelope);
          PulsarAgentClient.msg_partition_key :=
            if truthy key then key else None;
          PulsarAgentClient.msg_properties :=
            match e with
            | Some ev => if truthy e then <["event_type" := JStr ev]> base
                         else base
            | None => base
            end |} ])%list /\
  PulsarAgentClient.producers self'
    = {[ topic ]} ∪ PulsarAgentClient.producers self /\
  PulsarAgentClient._connected self' = PulsarAgentClient._connected self.
Proof.
  unfold PulsarAgentClient.produce, PulsarAgentClient._get_producer.
  destruct (decide (topic ∈ PulsarAgentClient.producers self)) as [Hin|Hin].
  - unfold PulsarAgentClient.producer_send.
    destruct (PulsarAgentClient.broker_up _); [|discriminate].
    intros [= <- <-]. cbn. split; [done|]. split; [set_solver | done].
  - destruct (PulsarAgentClient._connected self); cbn; [|discriminate].
    destruct (PulsarAgentClient.broker_up (PulsarAgentClient.client self))
      eqn:Hup; [|discriminate].
    unfold PulsarAgentClient.producer_send. cbn. rewrite Hup.
    intros [= <- <-]. cbn. done.
Qed.

(** X5. [produce] on a client that is not connected and has no producer
    for the topic raises the connection error; nothing is sent and no
    producer is cached. *)
Theorem pulsar_produce_not_connected (self : PulsarAgentClient.t) (env : Env)
    (topic : string) (data : gmap string json)
    (message_key trace_id event_type : option string)
    (properties : option (gmap string json)) :
  PulsarAgentClient._connected self = false ->
  topic ∉ PulsarAgentClient.producers self ->
  PulsarAgentClient.produce self env topic data message_key trace_id
    event_type properties =
    (Raise (Exn ConnectionError
              (PulsarAgentClient.service_name self +:+
               ": Not connected to Pulsar")), self).
Proof.
  intros Hc Hin.
  unfold PulsarAgentClient.produce, PulsarAgentClient._get_producer.
  rewrite decide_False by done. by rewrite Hc.
Qed.

(** X6. Producers are created on demand and kept: a call to [produce] adds
    at most the producer of its topic, a successful one leaves that
    producer cached, and a topic already cached is served without creating
    anything and without looking at the connection flag, also after
    [disconnect], which does not clear the cache. *)
Theorem pulsar_producer_cache (self : PulsarAgentClient.t) (env : Env)
    (topic : string) (data : gmap string json)
    (message_key trace_id event_type : option string)
    (properties : option (gmap string json)) (closing : result unit) :
  let r :=
    PulsarAgentClient.produce self env topic data message_key trace_id
      event_type properties in
  PulsarAgentClient.producers self ⊆ PulsarAgentClient.producers (snd r) /\
  PulsarAgentClient.producers (snd r)
    ⊆ {[ topic ]} ∪ PulsarAgentClient.producers self /\
  (is_ok (fst r) = true -> topic ∈ PulsarAgentClient.producers (snd r)) /\
  (topic ∈ PulsarAgentClient.producers self ->
     PulsarAgentClient.producers (snd r) = PulsarAgentClient.producers self /\
     let c := snd (PulsarAgentClientOps.disconnect self closing) in
     PulsarAgentClient.producers c = PulsarAgentClient.producers self /\
     PulsarAgentClient._get_producer c topic = (Ok tt, c)).
Proof.
  cbv zeta.
  unfold PulsarAgentClient.produce, PulsarAgentClient._get_producer,
    PulsarAgentClient.producer_send, PulsarAgentClientOps.disconnect.
  destruct (decide (topic ∈ PulsarAgentClient.producers self)) as [Hin|Hin].
  - destruct (PulsarAgentClient.broker_up _); cbn.
    all: repeat split; try set_solver.
    all: destruct (PulsarAgentClient._connected self); cbn;
      try destruct closing as [[]|?]; cbn; by rewrite ?decide_True.
  - destruct (PulsarAgentClient._connected self); cbn;
      [|repeat split; (set_solver || done)].
    destruct (PulsarAgentClient.broker_up (PulsarAgentClient.client self))
      eqn:Hup; cbn; [rewrite Hup; cbn|]; repeat split; (set_solver || done).
Qed.

(** X7. A successful [produce] appends exactly one message to the topic.
    Its partition key is the message key when that is a non-empty string
    and absent otherwise; its properties carry the client's service name
    and the very [trace_id] of the envelope in the body, the event type
    when one is given, and otherwise what the caller passed. *)
Theorem pulsar_produce_message (self self' : PulsarAgentClient.t) (env : Env)
    (topic : string) (data : gmap string json)
    (message_key trace_id event_type : option string)
    (properties : option (gmap string json))
    (msg_id : PulsarAgentClient.MessageId) :
  PulsarAgentClient.produce self env topic data message_key trace_id
    event_type properties = (Ok msg_id, self') ->
  exists (msg : PulsarAgentClient.Message) (body : gmap string json)
         (trace : json),
    PulsarAgentClient.log (PulsarAgentClient.client self') =
      (PulsarAgentClient.log (PulsarAgentClient.client self) ++ [msg])%list /\
    PulsarAgentClient.msg_topic msg = topic /\
    PulsarAgentClient.msg_data msg = dumps (JObj body) /\
    PulsarAgentClient.msg_partition_key msg =
      (if truthy message_key then message_key else None) /\
    body !! "trace_id" = Some trace /\
    PulsarAgentClient.msg_properties msg !! "trace_id" = Some trace /\
    PulsarAgentClient.msg_properties msg !! "service"
      = Some (JStr (PulsarAgentClient.service_name self)) /\
    (forall ev, event_type = Some ev -> ev <> "" ->
       PulsarAgentClient.msg_properties msg !! "event_type"
         = Some (JStr ev)) /\
    (forall k, k <> "trace_id" -> k <> "service" -> k <> "event_type" ->
       PulsarAgentClient.msg_properties msg !! k
         = dict_or_empty properties !! k).
Proof.
  intros (Hlog & _ & _)%produce_ok_message. cbv zeta in Hlog.
  set (envelope := PulsarAgentClient._create_message_envelope
                     self env data trace_id event_type) in *.
  assert (exists trace, envelope !! "trace_id" = Some trace) as [trace Htr].
  { unfold envelope. rewrite pulsar_envelope_lookup.
    destruct (data !! "trace_id"); [eauto|].
    repeat case_decide; try done. eauto. }
  eexists _, envelope, trace. split; [exact Hlog|]. cbn.
  split; [done|]. split; [done|]. split; [done|]. split; [exact Htr|].
  rewrite Htr. cbn.
  destruct event_type as [ev|]; [destruct (truthy (Some ev)) eqn:Hev|].
  - split; [by simplify_map_eq|]. split; [by simplify_map_eq|].
    split; [intros ev' [= <-] _; by simplify_map_eq|].
    intros k Hk1 Hk2 Hk3. by simplify_map_eq.
  - split; [by simplify_map_eq|]. split; [by simplify_map_eq|].
    split; [intros ev' [= <-] Hne; by rewrite truthy_given in Hev|].
    intros k Hk1 Hk2 Hk3. by simplify_map_eq.
  - split; [by simplify_map_eq|]. split; [by simplify_map_eq|].
    split; [intros ev' [=]|].
    intros k Hk1 Hk2 Hk3. by simplify_map_eq.
Qed.

(** X8. The topic wrappers route as their names say. A conversation event
    goes to [persistent://arc/events/conversations] keyed by the
    conversation id, an audit record to [persistent://arc/audit/logs] keyed
    by the user id with [action] and [resource] in the body, an analytics
    event to [persistent://arc/analytics/<metric>] without a key; each
    carries its event type as a message property. *)
Theorem pulsar_topic_wrappers (self self' : PulsarAgentClient.t) (env : Env)
    (data : gmap string json) (trace_id : option string)
    (msg_id : PulsarAgentClient.MessageId) :
  (forall conversation_id event_type,
     conversation_id <> "" -> event_type <> "" ->
     PulsarAgentClient.produce_conversation_event self env conversation_id
       event_type data trace_id = (Ok msg_id, self') ->
     exists msg,
       PulsarAgentClient.log (PulsarAgentClient.client self') =
         (PulsarAgentClient.log (PulsarAgentClient.client self) ++ [msg])%list /\
       PulsarAgentClient.msg_topic msg
         = "persistent://arc/events/conversations" /\
       PulsarAgentClient.msg_partition_key msg = Some conversation_id /\
       PulsarAgentClient.msg_properties msg !! "event_type"
         = Some (JStr event_type)) /\
  (forall user_id action resource,
     user_id <> "" ->
     data !! "action" = None -> data !! "resource" = None ->
     PulsarAgentClientOps.produce_audit_log self env user_id action resource
       data trace_id = (Ok msg_id, self') ->
     exists msg body,
       PulsarAgentClient.log (PulsarAgentClient.client self') =
         (PulsarAgentClient.log (PulsarAgentClient.client self) ++ [msg])%list /\
       PulsarAgentClient.msg_topic msg = "persistent://arc/audit/logs" /\
       PulsarAgentClient.msg_partition_key msg = Some user_id /\
       PulsarAgentClient.msg_properties msg !! "event_type"
         = Some (JStr "audit_log") /\
       PulsarAgentClient.msg_data msg = dumps (JObj body) /\
       body !! "action" = Some (JStr action) /\
       body !! "resource" = Some (JStr resource)) /\
  (forall metric_type,
     PulsarAgentClientOps.produce_analytics_event self env metric_type data
       trace_id = (Ok msg_id, self') ->
     exists msg,
       PulsarAgentClient.log (PulsarAgentClient.client self') =
         (PulsarAgentClient.log (PulsarAgentClient.client self) ++ [msg])%list /\
       PulsarAgentClient.msg_topic msg
         = "persistent://arc/analytics/" +:+ metric_type /\
       PulsarAgentClient.msg_partition_key msg = None /\
       PulsarAgentClient.msg_properties msg !! "event_type"
         = Some (JStr ("analytics_" +:+ metric_type))).
Proof.
  split; [|split].
  - intros cid ev Hcid Hev
      (Hlog & _ & _)%produce_ok_message. cbv zeta in Hlog.
    rewrite !truthy_given in Hlog by done.
    eexists. split; [exact Hlog|]. cbn. by simplify_map_eq.
  - intros uid action resource Huid Ha Hr
      (Hlog & _ & _)%produce_ok_message. cbv zeta in Hlog.
    rewrite !truthy_given in Hlog by done.
    eexists _, _. split; [exact Hlog|]. cbn.
    split; [done|]. split; [done|]. split; [by simplify_map_eq|].
    split; [reflexivity|].
    rewrite !pulsar_envelope_lookup.
    rewrite !lookup_union_r by done. by simplify_map_eq.
  - intros metric (Hlog & _ & _)%produce_ok_message. cbv zeta in Hlog.
    assert (truthy (Some ("analytics_" +:+ metric)) = true) as Hev by done.
    rewrite Hev in Hlog.
    eexists. split; [exact Hlog|]. cbn. split; [done|]. split; [done|].
    by simplify_map_eq.
Qed.




End DurableOps.

(** * Further properties of the stores *)

Section SortedFacts.
Context {A : Type} (R : relation A).

(** In a sorted list, whatever [take] keeps comes before whatever it
    leaves. *)
Lemma sorted_take_first (n : nat) (l : list A) (x y : A) :
  StronglySorted R l -> x ∈ take n l -> y ∈ l -> y ∉ take n l -> R x y.
Proof.
  intros Hl Hx Hy Hny. rewrite <- (take_drop n l) in Hl, Hy.
  apply elem_of_app in Hy as [Hy|Hy]; [done|].
  by eapply StronglySorted_app_1_elem_of.
Qed.
End SortedFacts.

Section StoreOps.
Context `{EmbeddingModel}.

(** X10. Among the turns of the user, [get_context] returns the nearest:
    no stored turn it leaves out is closer to the query than one it
    returns. *)
Theorem get_context_nearest (db db' : Database.t) (u q : string) (k : Z)
    (res : list (Z * string * scalar)) :
  Database.get_context db u q k = (Ok res, db') ->
  forall near far : Z * string * scalar,
    near ∈ res ->
    far ∈ Database.select_distances db u (encode q) ->
    far ∉ res ->
    scalar_le near.2 far.2.
Proof.
  intros (_ & _ & _ & ->)%get_context_ok near far Hnear Hfar Hnot.
  eapply (sorted_take_first (fun a b => scalar_le a.2 b.2));
    [apply order_by_sorted; apply _ | exact Hnear | | exact Hnot].
  by rewrite order_by_perm.
Qed.

(** X11. [get_recent_conversations] returns at most [limit] turns of the
    user, the most recent first; a turn of the user it leaves out is no
    more recent than any it returns, and with no more than [limit] turns
    stored it returns them all. The table is left as it was. *)
Theorem get_recent_conversations_latest (db db' : Database.t) (u : string)
    (limit : Z) (res : list (Z * string)) :
  Database.get_recent_conversations db u limit = (Ok res, db') ->
  db' = db /\
  exists rows : list Database.Conversation,
    res = (fun c => (Database.id c, Database.text c)) <$> rows /\
    Z.of_nat (length rows) <= limit /\
    StronglySorted
      (fun a b => Database.created_at b <= Database.created_at a) rows /\
    (forall c, c ∈ rows ->
       c ∈ Database.conversations db /\ Database.user_id c = u) /\
    (forall c r, c ∈ Database.conversations db -> Database.user_id c = u ->
       c ∉ rows -> r ∈ rows ->
       Database.created_at c <= Database.created_at r) /\
    (Z.of_nat (length (filter (fun c => Database.user_id c = u)
                              (Database.conversations db))) <= limit ->
     rows ≡ₚ filter (fun c => Database.user_id c = u)
                    (Database.conversations db)).
Proof.
  unfold Database.get_recent_conversations. intros [_ Hbody]%session_ok.
  destruct (Sql.limit limit _) as [rows|e] eqn:Hl; [|done].
  injection Hbody as <- <-. split; [done|].
  apply limit_ok in Hl as [Hlimit ->].
  set (mine := filter (fun c => Database.user_id c = u)
                      (Database.conversations db)).
  assert (Hsorted : StronglySorted
            (fun a b => Database.created_at b <= Database.created_at a)
            (Sql.order_by (flip Z.le) Database.created_at mine)).
  { apply StronglySorted_merge_sort.
    - intros a b c Hab Hbc. unfold flip in *. lia.
    - intros a b. unfold flip. lia. }
  eexists. split; [reflexivity|]. split; [rewrite length_take; lia|].
  split; [by apply StronglySorted_take|].
  split; [|split].
  - intros c Hc%subseteq_take. rewrite order_by_perm in Hc.
    by apply list_elem_of_filter in Hc as [? ?].
  - intros c r Hc Hu Hnot Hr.
    eapply (sorted_take_first
              (fun a b => Database.created_at b <= Database.created_at a));
      [exact Hsorted | exact Hr | | exact Hnot].
    rewrite order_by_perm. by apply list_elem_of_filter.
  - intros Hlen. rewrite take_ge; [apply order_by_perm|].
    rewrite order_by_perm. fold mine in Hlen. lia.
Qed.

(** What a query sees of the database. *)
Lemma get_context_unfold (db : Database.t) (u q : string) (k : Z) :
  Database.get_context db u q k =
  if Database.reachable db
  then match Sql.limit k
               (Sql.order_by scalar_le (fun row => row.2)
                  (Database.select_distances db u (encode q))) with
       | Ok rows => (Ok rows, db)
       | Raise e => (Raise e, db)
       end
  else (Raise (Exn DatabaseError "connection refused"), db).
Proof.
  unfold Database.get_context, Database.session.
  destruct (Database.reachable db); cbn [negb]; [|done].
  destruct (Sql.limit k _) as [rows|e]; cbn; [|done].
  by rewrite fmap_triple_id.
Qed.

Lemma select_distances_with_row (db : Database.t) (c : Database.Conversation)
    (u : string) (qe : list scalar) :
  Database.select_distances (with_row db c) u qe =
  (Database.select_distances db u qe ++
   (if decide (Database.user_id c = u)
    then [(Database.id c, Database.text c,
           l2_distance (Database.embedding c) qe)]
    else []))%list.
Proof.
  unfold Database.select_distances, with_row. cbn.
  rewrite filter_app, fmap_app. f_equal.
  rewrite filter_cons, filter_nil. by case_decide.
Qed.

(** X12. A saved turn can be retrieved: after a successful
    [save_conversation] for a user, a query of that user with room for all
    of the user's turns returns the new turn, with its id, its text and the
    distance of its embedding to the query. The turns other users retrieve
    are the same as before. *)
Theorem save_then_get_context (db db' : Database.t) (u txt : string) (i : Z) :
  Database.save_conversation db u txt = (Ok i, db') ->
  (forall (q : string) (k : Z),
     Z.of_nat (length (filter (fun c => Database.user_id c = u)
                              (Database.conversations db))) < k ->
     exists res,
       Database.get_context db' u q k = (Ok res, db') /\
       (i, txt, l2_distance (encode txt) (encode q)) ∈ res) /\
  (forall (u' q : string) (k : Z),
     u' <> u ->
     fst (Database.get_context db' u' q k)
       = fst (Database.get_context db u' q k)).
Proof.
  intros (Hr & _ & -> & ->)%save_conversation_ok. split.
  - intros q k Hk. eexists. split.
    + apply get_context_ok. split; [exact Hr|]. split; [lia|]. done.
    + rewrite take_ge.
      * rewrite order_by_perm, select_distances_with_row. cbn.
        rewrite decide_True by done. apply elem_of_app. right.
        apply list_elem_of_here.
      * rewrite order_by_perm, select_distances_with_row. cbn.
        rewrite decide_True by done.
        unfold Database.select_distances.
        rewrite length_app, length_fmap. cbn. lia.
  - intros u' q k Hne. rewrite !get_context_unfold.
    rewrite select_distances_with_row. cbn.
    rewrite decide_False by done. rewrite app_nil_r.
    destruct (Database.reachable db); [|done].
    by destruct (Sql.limit k _).
Qed.

(** Inserting a row under the next id keeps the ids a primary key. *)
Lemma with_row_primary_key (db : Database.t) (c : Database.Conversation) :
  primary_key_ok db -> Database.id c = Database.next_id db ->
  (Database.id c ∉ (Database.id <$> Database.conversations db)) /\
  primary_key_ok (with_row db c).
Proof.
  intros [Hnodup Hbelow] Hid.
  assert (Hfresh : Database.id c
                     ∉ (Database.id <$> Database.conversations db)).
  { intros (c' & Heq & Hc')%list_elem_of_fmap.
    rewrite Forall_forall in Hbelow. specialize (Hbelow c' Hc'). lia. }
  split; [done|]. split; cbn.
  - rewrite fmap_app. apply NoDup_app. split; [done|].
    split; [|apply NoDup_singleton].
    intros x Hx Heq%list_elem_of_singleton. by subst.
  - apply Forall_app. split.
    + eapply Forall_impl; [exact Hbelow|]. cbn. intros; lia.
    + apply Forall_singleton. lia.
Qed.

Lemma save_conversation_keeps_key (db : Database.t) (u txt : string) :
  primary_key_ok db ->
  primary_key_ok (snd (Database.save_conversation db u txt)).
Proof.
  intros Hok.
  destruct (Database.save_conversation db u txt) as [[i|e] db'] eqn:Hs; cbn.
  - apply save_conversation_ok in Hs as (_ & _ & _ & ->).
    by apply with_row_primary_key.
  - by apply session_raise in Hs as ->.
Qed.

(** X13. The ids stay a primary key: if the ids of the table are distinct
    and below the sequence, they still are after [save_conversation],
    whether it succeeds or raises; a successful call returns an id that was
    not in the table and moves the sequence past it. *)
Theorem save_conversation_primary_key (db db' : Database.t) (u txt : string)
    (r : result Z) :
  Database.save_conversation db u txt = (r, db') ->
  primary_key_ok db ->
  primary_key_ok db' /\
  (forall i, r = Ok i ->
     (i ∉ (Database.id <$> Database.conversations db)) /\
     (i ∈ (Database.id <$> Database.conversations db')) /\
     Database.next_id db' = i + 1).
Proof.
  intros Hsave Hok. split.
  - pose proof (save_conversation_keeps_key db u txt Hok) as Hk.
    by rewrite Hsave in Hk.
  - intros i ->.
    apply save_conversation_ok in Hsave as (_ & _ & -> & ->).
    destruct (with_row_primary_key db (new_row db u txt) Hok eq_refl)
      as [Hfresh _].
    split; [exact Hfresh|]. split; [|done].
    cbn. rewrite fmap_app. apply elem_of_app. right.
    apply list_elem_of_here.
Qed.

(** X14. [find_similar_conversations] rejects a negative limit; otherwise
    it returns at most [limit] of the candidate turns (the session's, or
    the user's when a user id is given), in ascending order of cosine
    distance with the turns that have no embedding last, and no candidate
    it leaves out sorts before one it returns. *)
Theorem find_similar_conversations_top (session : Models.Session)
    (query_embedding : list scalar) (limit : Z) (user_id : option string) :
  let key := fun c : Models.Conversation =>
    (fun e => cosine_distance e query_embedding) <$> Models.embedding c in
  (limit < 0 ->
     exists e,
       Models.find_similar_conversations session query_embedding limit user_id
         = Raise e) /\
  (0 <= limit ->
     exists res,
       Models.find_similar_conversations session query_embedding limit user_id
         = Ok res /\
       Z.of_nat (length res) <= limit /\
       StronglySorted
         (fun a b => Sql.nulls_last scalar_le (key a) (key b)) res /\
       (forall c, c ∈ res -> c ∈ session) /\
       (forall c r,
          c ∈ session ->
          (truthy user_id = true -> Some (Models.user_id c) = user_id) ->
          c ∉ res -> r ∈ res ->
          Sql.nulls_last scalar_le (key r) (key c))).
Proof.
  cbv zeta. unfold Models.find_similar_conversations.
  set (candidates :=
         match user_id with
         | Some u => if truthy user_id
                     then filter (fun c => Models.user_id c = u) session
                     else session
         | None => session
         end).
  assert (Hcand : forall c, c ∈ candidates -> c ∈ session).
  { intros c. unfold candidates.
    destruct user_id as [u|]; [destruct (truthy (Some u))|]; try done.
    by intros [_ ?]%list_elem_of_filter. }
  assert (Hall : forall c, c ∈ session ->
            (truthy user_id = true -> Some (Models.user_id c) = user_id) ->
            c ∈ candidates).
  { intros c Hc Hu. unfold candidates.
    destruct user_id as [u|]; [destruct (truthy (Some u))|]; try done.
    apply list_elem_of_filter. split; [|done].
    specialize (Hu eq_refl). congruence. }
  split.
  - intros Hneg. unfold Sql.limit. destruct (Z.ltb_spec limit 0); [eauto|lia].
  - intros Hpos. unfold Sql.limit. destruct (Z.ltb_spec limit 0); [lia|].
    eexists. split; [reflexivity|].
    pose proof (@order_by_sorted _ _ (Sql.nulls_last scalar_le)
                  Models.nulls_last_dec (nulls_last_total scalar_le)
                  (nulls_last_trans scalar_le)
                  (fun c => (fun e => cosine_distance e query_embedding)
                              <$> Models.embedding c) candidates)
      as Hsorted.
    split; [rewrite length_take; lia|].
    split; [by apply StronglySorted_take|]. split.
    + intros c Hc%subseteq_take. rewrite order_by_perm in Hc. auto.
    + intros c r Hc Hu Hnot Hr.
      eapply (sorted_take_first _ _ _ r c Hsorted Hr); [|exact Hnot].
      rewrite order_by_perm. auto.
Qed.

End StoreOps.

(** * Further properties of the reasoning workflow and its callers *)

Section WorkflowOps.
Context `{EmbeddingModel}.

(** The compiled graph only reads the store. *)
Lemma graph_keeps_store (llm : Graph.llm_client) (db db' : Database.t)
    (u message : string) (r : result (gmap string Graph.value)) :
  Graph.create_reasoning_graph llm (Graph.initial_state u message) db
    = (r, db') -> db' = db.
Proof.
  rewrite graph_run.
  destruct (Database.get_context db u message 5) as [[rows|e] db1] eqn:Hctx.
  - apply get_context_ok in Hctx as (_ & _ & -> & _). by intros [= _ <-].
  - apply get_context_raise in Hctx as ->. by intros [= _ <-].
Qed.

(** X15. With the store reachable, the [retrieve_context] node fills
    [context] with at most five texts, each the text of a stored turn of
    the state's own user, and changes neither the rest of the state nor the
    store. *)
Theorem retrieve_context_node_context (state : gmap string Graph.value)
    (db : Database.t) (u : string) (msgs : list Graph.BaseMessage) :
  state !! "user_id" = Some (Graph.VStr u) ->
  state !! "messages" = Some (Graph.VMessages msgs) ->
  Database.reachable db = true ->
  exists texts : list string,
    Graph.retrieve_context_node state db
      = (Ok (<["context" := Graph.VTexts texts]> state), db) /\
    (length texts <= 5)%nat /\
    (forall t, t ∈ texts ->
       exists c, c ∈ Database.conversations db /\
                 Database.user_id c = u /\ Database.text c = t).
Proof.
  intros Hu Hm Hr.
  rewrite (retrieve_context_node_run _ _ u msgs) by done.
  set (q := match last msgs with
            | Some m => Graph.content m
            | None => ""
            end).
  destruct (get_context_returns db u q 5 Hr) as [rows Hctx]; [lia|].
  rewrite Hctx. eexists. split; [reflexivity|]. split.
  - rewrite length_fmap.
    apply get_context_ok in Hctx as (_ & _ & _ & ->).
    rewrite length_take. lia.
  - intros t ([[i txt] d] & -> & Hrow)%list_elem_of_fmap.
    eapply get_context_rows, elem_of_select_distances in Hrow; [|exact Hctx].
    destruct Hrow as (c & Hc & Hcu & _ & Hct & _). eauto.
Qed.

(** X16. A failing LLM never fails the pass. With the store reachable, a
    user id within the column width and an embedding model of the column's
    dimension, [invoke_reasoning_graph] returns for every LLM client; when
    every LLM call raises, it returns the fixed apology, and the apology is
    stored as the agent's turn after the user's message. *)
Theorem reasoning_pass_survives_llm (llm : Graph.llm_client)
    (db : Database.t) (u message : string) :
  Database.reachable db = true ->
  (String.length u <= 255)%nat ->
  (forall text, length (encode text) = Database.EMBEDDING_DIM) ->
  exists (reply : string),
    Graph.invoke_reasoning_graph (Graph.create_reasoning_graph llm)
      db u message =
      (Ok reply,
       with_row (with_row db (new_row db u message))
         (new_row (with_row db (new_row db u message)) u reply)) /\
    ((forall prompt, exists e, llm prompt = Raise e) ->
     reply = Graph.FALLBACK_RESPONSE).
Proof.
  intros Hr Hu Hdim.
  unfold Graph.invoke_reasoning_graph. rewrite graph_run.
  destruct (get_context_returns db u message 5 Hr) as [rows Hctx]; [lia|].
  rewrite Hctx. cbv zeta.
  set (texts := (fun r => r.1.2) <$> rows).
  set (twice := [Graph.HumanMessage message; Graph.HumanMessage message]).
  set (reply := reply_of (llm (Graph.format_messages texts twice))).
  destruct (final_state_lookup u message texts reply) as (Hfinal & _ & _).
  cbv zeta in Hfinal. fold twice in Hfinal. rewrite Hfinal.
  assert (Hsave : forall d t, Database.reachable d = true ->
            Database.save_conversation d u t
              = (Ok (Database.next_id d), with_row d (new_row d u t))).
  { intros d t Hd. apply save_conversation_ok.
    split; [done|]. split; [|done].
    apply check_columns_ok; cbn; [exact Hu | apply Hdim]. }
  rewrite Hsave by done. rewrite Hsave by done.
  exists reply. split; [done|].
  intros Hdown. unfold reply.
  by destruct (Hdown (Graph.format_messages texts twice)) as [e ->].
Qed.

(** X17. A pass that raises has stored nothing or exactly the user's
    message, never the reply alone. The second outcome occurs exactly when
    the retrieval succeeded, the user's message was inserted, and the
    insert of the reply then raised: the first insert is committed on its
    own and stays, so the two inserts are not one transaction. *)
Theorem reasoning_pass_failure_rows (llm : Graph.llm_client)
    (db : Database.t) (u message : string) :
  let pass :=
    Graph.invoke_reasoning_graph (Graph.create_reasoning_graph llm)
      db u message in
  let stored := with_row db (new_row db u message) in
  (forall e db', pass = (Raise e, db') -> db' = db \/ db' = stored) /\
  (forall e,
     pass = (Raise e, stored) <->
     exists rows,
       Database.get_context db u message 5 = (Ok rows, db) /\
       Database.save_conversation db u message
         = (Ok (Database.next_id db), stored) /\
       fst (Database.save_conversation stored u
              (reply_of
                 (llm (Graph.format_messages ((fun r => r.1.2) <$> rows)
                         [Graph.HumanMessage message;
                          Graph.HumanMessage message]))))
         = Raise e) /\
  stored <> db.
Proof.
  cbv zeta.
  assert (Hne : with_row db (new_row db u message) <> db).
  { intros Heq. apply (f_equal (fun d => length (Database.conversations d)))
      in Heq. cbn in Heq. rewrite length_app in Heq. cbn in Heq. lia. }
  unfold Graph.invoke_reasoning_graph. rewrite graph_run.
  destruct (Database.get_context db u message 5) as [[rows|e0] db1] eqn:Hctx.
  - apply get_context_ok in Hctx as Hdb. destruct Hdb as (_ & _ & -> & _).
    cbv zeta.
    set (texts := (fun r => r.1.2) <$> rows).
    set (twice := [Graph.HumanMessage message; Graph.HumanMessage message]).
    set (reply := reply_of (llm (Graph.format_messages texts twice))).
    destruct (final_state_lookup u message texts reply) as (Hfinal & _ & _).
    cbv zeta in Hfinal. fold twice in Hfinal. rewrite Hfinal.
    destruct (Database.save_conversation db u message)
      as [[i1|e1] db2] eqn:Hs1.
    + apply save_conversation_ok in Hs1 as Hok.
      destruct Hok as (_ & _ & -> & ->).
      destruct (Database.save_conversation
                  (with_row db (new_row db u message)) u reply)
        as [[i2|e2] db3] eqn:Hs2.
      * split; [intros ? ? [=]|]. split; [|done].
        intros e. split; [intros [=]|].
        intros (rows' & [= <-] & _ & Hraise). fold texts twice reply in Hraise.
        rewrite Hs2 in Hraise. discriminate Hraise.
      * apply session_raise in Hs2 as Hdb. subst db3.
        split; [intros ? ? [= _ <-]; by right|]. split; [|done].
        intros e. split.
        -- intros [= ->]. exists rows. fold texts twice reply.
           by rewrite Hs2.
        -- intros (rows' & [= <-] & _ & Hraise).
           fold texts twice reply in Hraise. rewrite Hs2 in Hraise.
           by injection Hraise as ->.
    + apply session_raise in Hs1 as Hdb. subst db2.
      split; [intros ? ? [= _ <-]; by left|]. split; [|done].
      intros e. split; [by intros [= _ ?]|].
      intros (rows' & _ & [=] & _).
  - apply get_context_raise in Hctx as Hdb. subst db1.
    split; [intros ? ? [= _ <-]; by left|]. split; [|done].
    intros e. split; [by intros [= _ ?]|].
    intros (rows' & [=] & _).
Qed.

(** X18. A reasoning pass keeps the ids a primary key. *)
Theorem reasoning_pass_primary_key (llm : Graph.llm_client)
    (db : Database.t) (u message : string) :
  primary_key_ok db ->
  primary_key_ok
    (snd (Graph.invoke_reasoning_graph (Graph.create_reasoning_graph llm)
            db u message)).
Proof.
  intros Hok.
  pose proof (fun d t => save_conversation_keeps_key d u t) as Hstep.
  unfold Graph.invoke_reasoning_graph.
  destruct (Graph.create_reasoning_graph llm _ db) as [[final|e0] db1] eqn:Hg;
    apply graph_keeps_store in Hg as ->; [|done].
  destruct (final !! "final_response") as [response|]; [|done].
  specialize (Hstep db message Hok) as H1.
  destruct (Database.save_conversation db u message) as [[i1|e1] db2];
    cbn in H1; [|done].
  destruct response as [| reply | | |]; try done.
  specialize (Hstep db2 reply H1) as H2.
  by destruct (Database.save_conversation db2 u reply) as [[i2|e2] db3].
Qed.

(** X23. The [generate_response] node needs the retrieved context: on a
    state whose [context] is still [None], as in the initial state, it
    raises a type error whatever the LLM client is. Inside the compiled
    graph this cannot happen, and an LLM failure is absorbed: a run of the
    graph raises only the exception of a failed retrieval. *)
Theorem graph_fails_only_on_retrieval (llm : Graph.llm_client)
    (u message : string) :
  (exists msg,
     Graph.generate_response_node (Graph.initial_state u message) llm
       = Raise (Exn TypeError msg)) /\
  (forall (db db' : Database.t) (e : exn),
     Graph.create_reasoning_graph llm (Graph.initial_state u message) db
       = (Raise e, db') ->
     Database.get_context db u message 5 = (Raise e, db')).
Proof.
  split.
  - eexists. reflexivity.
  - intros db db' e. rewrite graph_run.
    destruct (Database.get_context db u message 5) as [[rows|e'] db1];
      [cbv zeta; discriminate | by intros [= -> ->]].
Qed.

End WorkflowOps.

Section BrainService.
Context `{JsonCodec} `{EmbeddingModel}.

Lemma json_truthy_str (s : string) :
  s <> "" -> json_truthy (Some (JStr s)) = true.
Proof.
  intros Hs. cbn. by destruct (String.eqb_spec s "").
Qed.

Lemma brain_request_body_str (graph : Graph.StateGraph) (db : Database.t)
    (msg_data : bytes) (latency_ms : Z) (payload : gmap string json)
    (u t : string) :
  loads msg_data = Some (JObj payload) ->
  payload !! "user_id" = Some (JStr u) ->
  payload !! "text" = Some (JStr t) ->
  u <> "" -> t <> "" ->
  NatsHandler.brain_request_body graph db msg_data latency_ms =
  match Graph.invoke_reasoning_graph graph db u t with
  | (Ok response_text, db') =>
      (Ok {[ "user_id" := JStr u; "text" := JStr response_text;
             "latency_ms" := JNum latency_ms ]}, db')
  | (Raise e, db') => (Raise e, db')
  end.
Proof.
  intros Hl Hu Ht Hune Htne. unfold NatsHandler.brain_request_body.
  rewrite Hl, Hu, Ht. by rewrite !json_truthy_str.
Qed.

(** X19. [handle_brain_request] answers every request whose [user_id] and
    [text] have the documented type, and its answer decodes to an object
    with the latency and either an [error] or a [text], never both. An
    answer with a [text] echoes the [user_id] of the request and carries
    the reply of a reasoning pass that succeeded for that user and the
    request's text, with the store as that pass left it. *)
Theorem handle_brain_request_reply (graph : Graph.StateGraph)
    (db : Database.t) (msg_data : bytes) (latency_ms : Z) :
  str_fields msg_data ->
  exists m : gmap string json,
    loads (fst (NatsHandler.handle_brain_request graph db msg_data latency_ms))
      = Some (JObj m) /\
    m !! "latency_ms" = Some (JNum latency_ms) /\
    ((exists msg, m !! "error" = Some (JStr msg) /\ m !! "text" = None) \/
     (m !! "error" = None /\
      exists (payload : gmap string json) (u t reply : string),
        loads msg_data = Some (JObj payload) /\
        payload !! "user_id" = Some (JStr u) /\
        payload !! "text" = Some (JStr t) /\
        m !! "user_id" = Some (JStr u) /\
        m !! "text" = Some (JStr reply) /\
        Graph.invoke_reasoning_graph graph db u t =
          (Ok reply,
           snd (NatsHandler.handle_brain_request graph db msg_data
                  latency_ms)))).
Proof.
  intros _. unfold NatsHandler.handle_brain_request.
  destruct (NatsHandler.brain_request_body graph db msg_data latency_ms)
    as [[response|e] db'] eqn:Hbody; cbn.
  - eexists. split; [apply loads_dumps|].
    unfold NatsHandler.brain_request_body in Hbody.
    destruct (loads msg_data) as [[| | | | |payload]|] eqn:Hl;
      try discriminate.
    destruct (negb _ || negb _); [discriminate|].
    destruct (payload !! "user_id") as [[| | |u| |]|] eqn:Hu;
      try discriminate.
    destruct (payload !! "text") as [[| | |t| |]|] eqn:Ht; try discriminate.
    destruct (Graph.invoke_reasoning_graph graph db u t)
      as [[reply|e] db1] eqn:Hinv; [|discriminate].
    injection Hbody as <- <-.
    split; [by simplify_map_eq|]. right. split; [by simplify_map_eq|].
    exists payload, u, t, reply.
    repeat split; try done; by simplify_map_eq.
  - eexists. split; [apply loads_dumps|].
    split; [by simplify_map_eq|]. left. eexists. by simplify_map_eq.
Qed.

(** X20. A request that is not a JSON object with non-empty [user_id] and
    [text] is answered with an error, whatever the graph is, and the store
    is not touched. *)
Theorem handle_brain_request_rejects (graph : Graph.StateGraph)
    (db : Database.t) (msg_data : bytes) (latency_ms : Z) :
  ~ well_formed_request msg_data ->
  exists msg,
    NatsHandler.handle_brain_request graph db msg_data latency_ms =
      (dumps (JObj {[ "error" := JStr msg;
                      "latency_ms" := JNum latency_ms ]}), db).
Proof.
  intros Hbad.
  unfold NatsHandler.handle_brain_request, NatsHandler.brain_request_body.
  destruct (loads msg_data) as [[| | | | |payload]|] eqn:Hl; try by eauto.
  destruct (json_truthy (payload !! "user_id")) eqn:Hu; cbn; [|by eauto].
  destruct (json_truthy (payload !! "text")) eqn:Ht; cbn; [|by eauto].
  destruct Hbad. exists payload. done.
Qed.

(** X21. The voice plugin against the brain service. When the user id and
    the latest chat message are non-empty and the reasoning pass succeeds,
    [chat] returns exactly the pass's reply; when the pass raises, and
    whenever the latest message or the user id is empty, it returns the
    fixed apology. *)
Theorem chat_through_brain (py_str : json -> string)
    (self : SherlockLLM.t) (graph : Graph.StateGraph) (db : Database.t)
    (latency_ms : Z) (chat_ctx : list SherlockLLM.ChatMessage) :
  let text := SherlockLLM._extract_latest_message chat_ctx in
  let stream :=
    fst (SherlockLLM.chat py_str self (brain_server graph db latency_ms)
           chat_ctx) in
  SherlockLLM.request_text stream = text /\
  (SherlockLLM.user_id self <> "" -> text <> "" ->
   forall reply db',
     Graph.invoke_reasoning_graph graph db (SherlockLLM.user_id self) text
       = (Ok reply, db') ->
     SherlockLLM.response_text stream = JStr reply) /\
  (SherlockLLM.user_id self <> "" -> text <> "" ->
   forall e db',
     Graph.invoke_reasoning_graph graph db (SherlockLLM.user_id self) text
       = (Raise e, db') ->
     SherlockLLM.response_text stream = JStr SherlockLLM.FALLBACK_RESPONSE) /\
  (SherlockLLM.user_id self = "" \/ text = "" ->
   SherlockLLM.response_text stream = JStr SherlockLLM.FALLBACK_RESPONSE).
Proof.
  cbv zeta.
  set (text := SherlockLLM._extract_latest_message chat_ctx).
  split.
  { unfold SherlockLLM.chat. fold text.
    by destruct (SherlockLLM._call_brain _ _ _ _) as [[] ?]. }
  unfold SherlockLLM.chat. fold text.
  unfold SherlockLLM._call_brain, SherlockLLM.connect, brain_server.
  assert (Hreq : forall s : SherlockLLM.t,
            SherlockLLM.user_id s = SherlockLLM.user_id self ->
            exists payload : gmap string json,
              payload = {[ "user_id" := JStr (SherlockLLM.user_id s);
                           "text" := JStr text ]} /\
              payload !! "user_id" = Some (JStr (SherlockLLM.user_id self)) /\
              payload !! "text" = Some (JStr text)).
  { intros s Hs. eexists. split; [reflexivity|]. rewrite Hs.
    by simplify_map_eq. }
  set (s' := if SherlockLLM.nc self then self
             else SherlockLLM.set_nc self true).
  assert (Hs' : SherlockLLM.user_id s' = SherlockLLM.user_id self)
    by (unfold s'; by destruct (SherlockLLM.nc self)).
  destruct (Hreq s' Hs') as (payload & Hp & Hpu & Hpt).
  assert (Hcall :
    (if SherlockLLM.nc self
     then (Ok tt, self)
     else match SherlockLLM.connect_result
                  {| SherlockLLM.connect_result := Ok tt;
                     SherlockLLM.request := fun subject payload0 =>
                       if String.eqb subject "brain.request"
                       then SherlockLLM.Reply
                              (fst (NatsHandler.handle_brain_request graph db
                                      payload0 latency_ms))
                       else SherlockLLM.RequestFailed
                              (Exn Exception "no responders") |} with
          | Ok _ => (Ok tt, SherlockLLM.set_nc self true)
          | Raise e => (Raise e, self)
          end) = (Ok tt, s')).
  { unfold s'. by destruct (SherlockLLM.nc self). }
  rewrite Hcall. cbn [SherlockLLM.request String.eqb Ascii.eqb Bool.eqb].
  rewrite <- Hp.
  unfold NatsHandler.handle_brain_request.
  split; [|split].
  - intros Hu Ht reply db' Hinv.
    rewrite (brain_request_body_str graph db _ latency_ms payload
               (SherlockLLM.user_id self) text) by (done || apply loads_dumps).
    rewrite Hinv. cbn. rewrite loads_dumps. by simplify_map_eq.
  - intros Hu Ht e db' Hinv.
    rewrite (brain_request_body_str graph db _ latency_ms payload
               (SherlockLLM.user_id self) text) by (done || apply loads_dumps).
    rewrite Hinv. cbn. rewrite loads_dumps. by simplify_map_eq.
  - intros Hempty.
    unfold NatsHandler.brain_request_body. rewrite loads_dumps, Hpu, Hpt.
    assert (negb (json_truthy (Some (JStr (SherlockLLM.user_id self))))
            || negb (json_truthy (Some (JStr text))) = true) as ->.
    { destruct Hempty as [-> | ->]; cbn; [done|]. apply orb_true_r. }
    cbn. rewrite loads_dumps. by simplify_map_eq.
Qed.

(** X22. The HTTP [/chat] endpoint and the NATS handler run the same pass.
    For a request with a non-empty text the endpoint leaves the store as
    the pass does; for a non-empty user id so does the handler, the
    endpoint answers 200 with the reply exactly when the handler replies
    with that text, and 500 when the handler replies with an error. An
    empty user id is rejected by the handler without touching the store,
    while the endpoint runs the pass for it. *)
Theorem chat_endpoint_and_handler (graph : Graph.StateGraph)
    (db : Database.t) (u t : string) (latency_ms : Z) :
  t <> "" ->
  let request : gmap string json :=
    {[ "user_id" := JStr u; "text" := JStr t ]} in
  let pass := Graph.invoke_reasoning_graph graph db u t in
  (snd (Main.chat (Some db) (Some graph)
          {| Main.req_user_id := u; Main.req_text := t |} latency_ms)
     = Some (snd pass)) /\
  (u <> "" ->
   snd (NatsHandler.handle_brain_request graph db (dumps (JObj request))
          latency_ms) = snd pass /\
   (forall reply, fst pass = Ok reply ->
      fst (Main.chat (Some db) (Some graph)
             {| Main.req_user_id := u; Main.req_text := t |} latency_ms)
        = Main.Http200 {| Main.resp_user_id := u; Main.resp_text := reply;
                          Main.resp_latency_ms := latency_ms |} /\
      fst (NatsHandler.handle_brain_request graph db (dumps (JObj request))
             latency_ms)
        = dumps (JObj {[ "user_id" := JStr u; "text" := JStr reply;
                         "latency_ms" := JNum latency_ms ]})) /\
   (forall e, fst pass = Raise e ->
      fst (Main.chat (Some db) (Some graph)
             {| Main.req_user_id := u; Main.req_text := t |} latency_ms)
        = Main.HTTPException 500 ("Reasoning error: " +:+ exn_msg e) /\
      fst (NatsHandler.handle_brain_request graph db (dumps (JObj request))
             latency_ms)
        = dumps (JObj {[ "error" := JStr (exn_msg e);
                         "latency_ms" := JNum latency_ms ]}))) /\
  (u = "" ->
   NatsHandler.handle_brain_request graph db (dumps (JObj request))
     latency_ms
   = (dumps (JObj {[ "error" :=
                       JStr "Missing required fields: user_id, text";
                     "latency_ms" := JNum latency_ms ]}), db)).
Proof.
  intros Ht. cbv zeta. unfold Main.chat. cbn.
  split; [by destruct (Graph.invoke_reasoning_graph graph db u t) as [[]]|].
  split.
  - intros Hu. unfold NatsHandler.handle_brain_request.
    rewrite (brain_request_body_str graph db _ latency_ms
               {[ "user_id" := JStr u; "text" := JStr t ]} u t)
      by (done || apply loads_dumps || by simplify_map_eq).
    destruct (Graph.invoke_reasoning_graph graph db u t) as [[reply|e] db'];
      cbn; (split; [done|]); split; intros ? [= <-]; done.
  - intros ->.
    unfold NatsHandler.handle_brain_request, NatsHandler.brain_request_body.
    rewrite loads_dumps. by simplify_map_eq.
Qed.

End BrainService.

(** * Examples and counterexamples on concrete inputs *)

#[local] Existing Instance doc_codec.
#[local] Existing Instance Z_vectors.
#[local] Existing Instance length_model.


(** C5: on a disconnected client a publish to [foo.bar.baz] raises the
    connection error, not the subject error. *)
Lemma publish_invalid_subject_offline :
  starts_with_allowed_prefix "foo.bar.baz" = false /\
  fst (NATSAgentClient.publish Examples.voice_offline Examples.env0
         "foo.bar.baz" ∅ None None)
    = Raise (Exn ConnectionError "voice: Not connected to NATS") /\
  forall msg,
    fst (NATSAgentClient.publish Examples.voice_offline Examples.env0
           "foo.bar.baz" ∅ None None)
      <> Raise (Exn ValueError msg).
Proof.
  split; [reflexivity|]. split; [reflexivity|]. intros msg. discriminate.
Qed.

Lemma publish_subject_validation_witness :
  (exists msg,
     fst (NATSAgentClient.publish Examples.voice_online Examples.env0
            "foo.bar.baz" ∅ None None) = Raise (Exn ValueError msg)) /\
  NATSAgentClient._validate_subject Examples.voice_online
    "agent.voice.session.started" = Ok tt.
Proof.
  split.
  - destruct (publish_subject_validation Examples.voice_online Examples.env0
                "foo.bar.baz" ∅ None None) as [Hbad _].
    destruct (Hbad eq_refl) as (_ & _ & Hraise & _).
    exact (Hraise eq_refl).
  - destruct (publish_subject_validation Examples.voice_online Examples.env0
                "agent.voice.session.started" ∅ None None) as [_ Hgood].
    exact (proj1 (Hgood eq_refl)).
Defined.

(** C7: a payload with a [trace_id] field of its own replaces the trace id
    given to [_create_message_envelope]; decoding recovers the payload's. *)
Lemma payload_trace_id_wins :
  exists m : gmap string json,
    loads (dumps (JObj (NATSAgentClient._create_message_envelope
                          Examples.voice_online Examples.env0
                          {[ "trace_id" := JStr "payload-trace" ]}
                          (Some "t-1") (Some "ev"))))
      = Some (JObj m) /\
    m !! "trace_id" = Some (JStr "payload-trace") /\
    m !! "trace_id" <> Some (JStr "t-1").
Proof.
  eexists. split; [reflexivity|]. split; [by vm_compute|].
  vm_compute. discriminate.
Qed.

Lemma envelope_roundtrip_witness :
  exists m : gmap string json,
    loads (dumps (JObj (NATSAgentClient._create_message_envelope
                          Examples.voice_online Examples.env0
                          {[ "user_id" := JStr "user-123" ]}
                          (Some "t-1") (Some "ev"))))
      = Some (JObj m) /\
    m !! "user_id" = Some (JStr "user-123") /\
    m !! "trace_id" = Some (JStr "t-1") /\
    m !! "event_type" = Some (JStr "ev").
Proof.
  destruct (envelope_roundtrip Examples.voice_online Examples.env0
              {[ "user_id" := JStr "user-123" ]} "t-1" "ev")
    as (m & Hm & Hp & _ & Ht & He & _).
  exists m. split; [exact Hm|]. split; [apply Hp; by vm_compute|].
  split; [apply Ht | apply He]; (discriminate || by vm_compute).
Defined.




(** A payload that is JSON but not an object is negatively acknowledged as
    well: reading the trace id from it raises. *)
Example consume_non_object_payload :
  PulsarAgentClient.consume_message Examples.always_true
    (Examples.steady_consumer []) []
    (Examples.message_with (Encoded (JList [JNum 1])))
    = ([PulsarAgentClient.NegativeAcknowledge
          (Examples.message_with (Encoded (JList [JNum 1])))], true).
Proof. reflexivity. Qed.

(** A message whose handler returns [True] is negatively acknowledged all
    the same when [acknowledge] raises. *)
Example consume_acknowledge_raises :
  PulsarAgentClient.consume_message Examples.always_true
    (Examples.ack_failing_consumer []) []
    (Examples.message_with (Encoded (JObj ∅)))
    = ([PulsarAgentClient.Acknowledge
          (Examples.message_with (Encoded (JObj ∅)));
        PulsarAgentClient.NegativeAcknowledge
          (Examples.message_with (Encoded (JObj ∅)))], true).
Proof. reflexivity. Qed.


(** C1: called with the empty string as [user_id], or without one,
    [find_similar_conversations] applies no filter and returns the turn of
    another user. *)
Lemma find_similar_conversations_unfiltered :
  Models.find_similar_conversations
    [Examples.sdk_turn 7 "u2" "hello" [1; 2]] [1; 2] 5 (Some "")
    = Ok [Examples.sdk_turn 7 "u2" "hello" [1; 2]] /\
  Models.find_similar_conversations
    [Examples.sdk_turn 7 "u2" "hello" [1; 2]] [1; 2] 5 None
    = Ok [Examples.sdk_turn 7 "u2" "hello" [1; 2]] /\
  Models.user_id (Examples.sdk_turn 7 "u2" "hello" [1; 2]) <> "".
Proof. split; [reflexivity|]. split; [reflexivity | discriminate]. Qed.

(** Without a [user_id] argument the helper searches all users. *)
Example find_similar_conversations_all_users :
  Models.find_similar_conversations
    [Examples.sdk_turn 7 "u2" "hello" [1; 2];
     Examples.sdk_turn 8 "u1" "hi" [2; 1]] [0; 3] 5 None
    = Ok [Examples.sdk_turn 7 "u2" "hello" [1; 2];
          Examples.sdk_turn 8 "u1" "hi" [2; 1]].
Proof. reflexivity. Qed.

Lemma retrieval_isolation_witness :
  (exists c, c ∈ Database.conversations Examples.db_two_users /\
             Database.user_id c = "u1" /\ Database.id c = 3 /\
             Database.text c = "hi" /\
             0 = l2_distance (Database.embedding c) (encode "hi")) /\
  (Examples.sdk_turn 8 "u1" "hi" [0; 0]
     ∈ [Examples.sdk_turn 7 "u2" "hello" [1; 2];
        Examples.sdk_turn 8 "u1" "hi" [0; 0]] /\
   Models.user_id (Examples.sdk_turn 8 "u1" "hi" [0; 0]) = "u1").
Proof.
  destruct (retrieval_isolation (H := Z_vectors) (H0 := length_model))
    as (Hctx & _ & Hfind).
  split.
  - apply (Hctx Examples.db_two_users Examples.db_two_users "u1" "hi" 5
             [(3, "hi", 0); (1, "hello", 3456)]).
    + reflexivity.
    + apply list_elem_of_here.
  - apply (Hfind [Examples.sdk_turn 7 "u2" "hello" [1; 2];
                  Examples.sdk_turn 8 "u1" "hi" [0; 0]]
             [0; 0] 5 "u1" [Examples.sdk_turn 8 "u1" "hi" [0; 0]]).
    + discriminate.
    + reflexivity.
    + apply list_elem_of_here.
Defined.

Lemma get_context_top_k_witness :
  Z.of_nat (length [(3, "hi", 0); (1, "hello", 3456)]) <= 5 /\
  StronglySorted (fun r1 r2 : Z * string * Z => r1.2 <= r2.2)
    [(3, "hi", 0); (1, "hello", 3456)] /\
  (forall row, row ∈ [(3, "hi", 0); (1, "hello", 3456)] ->
     row ∈ Database.select_distances Examples.db_two_users "u1" (encode "hi")) /\
  [(3, "hi", 0); (1, "hello", 3456)]
    ≡ₚ Database.select_distances Examples.db_two_users "u1" (encode "hi").
Proof.
  destruct (get_context_top_k (H := Z_vectors) (H0 := length_model)
              Examples.db_two_users Examples.db_two_users "u1" "hi" 5
              [(3, "hi", 0); (1, "hello", 3456)])
    as (Hlen & Hsorted & Hrows & Hall); [reflexivity|].
  split; [exact Hlen|]. split; [exact Hsorted|]. split; [exact Hrows|].
  apply Hall. apply Z.leb_le. reflexivity.
Defined.

(** C4: saving the same user and text twice succeeds twice; the second call
    is not rejected as a duplicate. *)
Lemma save_conversation_twice :
  exists db1 db2 : Database.t,
    Database.save_conversation Examples.db_empty "user-1" "Hello"
      = (Ok 1, db1) /\
    Database.save_conversation db1 "user-1" "Hello" = (Ok 2, db2) /\
    (fun c => (Database.user_id c, Database.text c))
      <$> Database.conversations db2
      = [("user-1", "Hello"); ("user-1", "Hello")].
Proof.
  eexists _, _. split; [reflexivity|]. split; reflexivity.
Qed.

Lemma save_conversation_insert_witness :
  Database.save_conversation Examples.db_empty "user-1" "Hello" =
    (Ok 1,
     {| Database.conversations :=
          [ {| Database.id := 1; Database.user_id := "user-1";
               Database.text := "Hello";
               Database.embedding := encode "Hello";
               Database.created_at := 1 |} ];
        Database.next_id := 2;
        Database.server_now := fun i => i;
        Database.reachable := true |}).
Proof.
  destruct (save_conversation_insert (H := Z_vectors) (H0 := length_model)
              Examples.db_empty "user-1" "Hello") as [Hok _].
  apply Hok; [reflexivity | cbn; lia | reflexivity].
Defined.

(** C2: a reasoning pass that succeeds leaves the durable bus empty: no
    [turn_completed] event is published. *)
Lemma reasoning_pass_publishes_nothing :
  exists w' : Deployment.World,
    Deployment.invoke_reasoning_graph Examples.world0
      (Graph.create_reasoning_graph Examples.llm_hi) "user-1" "Hello"
      = (Ok "Hi there!", w') /\
    PulsarAgentClient.log (Deployment.durable w') = [] /\
    forall session_id,
      Deployment.conversation_events (Deployment.durable w')
        "turn_completed" session_id = [].
Proof.
  eexists. split; [reflexivity|]. split; [reflexivity|]. intros; reflexivity.
Qed.

Lemma reasoning_pass_effects_witness :
  (fun c => (Database.id c, Database.user_id c, Database.text c))
    <$> Database.conversations
          (Deployment.memory
             (snd (Deployment.invoke_reasoning_graph Examples.world0
                     (Graph.create_reasoning_graph Examples.llm_hi)
                     "user-1" "Hello")))
    = [(1, "user-1", "Hello"); (2, "user-1", "Hi there!")] /\
  Deployment.durable
    (snd (Deployment.invoke_reasoning_graph Examples.world0
            (Graph.create_reasoning_graph Examples.llm_hi) "user-1" "Hello"))
    = Examples.empty_broker.
Proof.
  destruct (reasoning_pass_effects (H := Z_vectors) (H0 := length_model)
              (H1 := doc_codec) Examples.world0
              (snd (Deployment.invoke_reasoning_graph Examples.world0
                      (Graph.create_reasoning_graph Examples.llm_hi)
                      "user-1" "Hello"))
              Examples.llm_hi "user-1" "Hello" "Hi there!")
    as (final_state & earlier & _ & _ & _ & Hrows & Hbus); [reflexivity|].
  split; [by rewrite Hrows | exact Hbus].
Defined.

(** C3: after a failed LLM call the node's result carries the apology and
    no [reasoning_degraded] entry, and the workflow returns the bare text. *)
Lemma llm_failure_sets_no_mark :
  exists state' : gmap string Graph.value,
    Graph.generate_response_node Examples.retrieved_nothing
      Examples.llm_timeout = Ok state' /\
    state' !! "final_response" = Some (Graph.VStr Graph.FALLBACK_RESPONSE) /\
    state' !! "reasoning_degraded" = None /\
    fst (Graph.invoke_reasoning_graph
           (Graph.create_reasoning_graph Examples.llm_timeout)
           Examples.db_empty "user-1" "Hello")
      = Ok Graph.FALLBACK_RESPONSE.
Proof.
  eexists. split; [reflexivity|].
  split; [by vm_compute|]. split; [by vm_compute|]. reflexivity.
Qed.

Lemma llm_failure_fallback_witness :
  (exists state' : gmap string Graph.value,
     Graph.generate_response_node Examples.retrieved_nothing
       Examples.llm_timeout = Ok state' /\
     state' !! "final_response" =
       Some (Graph.VStr
               "I apologize, but I'm having trouble processing your request right now.")) /\
  SherlockLLM.response_text
    (fst (SherlockLLM.chat (fun _ => "") Examples.plugin
            Examples.silent_server [SherlockLLM.WithContent "Hello"]))
    = JStr "I apologize, but I'm having trouble processing your request right now.".
Proof.
  destruct llm_failure_fallback as [Hnode Hchat].
  split.
  - destruct (Hnode Examples.retrieved_nothing Examples.llm_timeout "user-1"
                [Graph.HumanMessage "Hello"] []
                (Exn TimeoutError "timed out"))
      as (state' & Hrun & Hfinal & _); [by vm_compute ..|].
    exists state'. by split.
  - rewrite (Hchat doc_codec (fun _ => "") Examples.plugin
               (SherlockLLM.set_nc Examples.plugin true)
               Examples.silent_server [SherlockLLM.WithContent "Hello"]
               (Exn Exception "Brain request timed out after 5.0s"));
      [reflexivity | by vm_compute].
Defined.

(** C6: with the store unreachable the [retrieve_context] node raises; it
    does not return a state with an empty context. *)
Lemma retrieve_context_node_raises :
  Graph.retrieve_context_node (Graph.initial_state "user-1" "Hello")
    Examples.db_down
    = (Raise (Exn DatabaseError "connection refused"), Examples.db_down).
Proof. reflexivity. Qed.

Lemma retrieval_failure_propagates_witness :
  Graph.retrieve_context_node (Graph.initial_state "user-1" "Hello")
    Examples.db_down
    = (Raise (Exn DatabaseError "connection refused"), Examples.db_down) /\
  Graph.invoke_reasoning_graph (Graph.create_reasoning_graph Examples.llm_hi)
    Examples.db_down "user-1" "Hello"
    = (Raise (Exn DatabaseError "connection refused"), Examples.db_down).
Proof.
  destruct (retrieval_failure_propagates (H := Z_vectors) (H0 := length_model))
    as (Hnode & Hinvoke & _).
  split.
  - apply (Hnode _ _ Examples.db_down "user-1" [Graph.HumanMessage "Hello"]);
      reflexivity.
  - apply (Hinvoke _ _ Examples.db_down). reflexivity.
Defined.

(** * Examples for the further properties *)

(** X1: connecting the connected voice client does not dial; a refused
    dial leaves the offline client offline. *)
Lemma nats_connect_idempotent_witness :
  NATSAgentClientOps.connect Examples.voice_online
    (Raise (Exn ConnectionError "no servers available"))
    = (Ok tt, Examples.voice_online) /\
  NATSAgentClientOps.connect Examples.voice_offline
    (Raise (Exn ConnectionError "no servers available"))
    = (Raise (Exn ConnectionError "no servers available"),
       Examples.voice_offline) /\
  NATSAgentClientOps.connect
    (snd (NATSAgentClientOps.connect Examples.voice_offline
            (Ok Examples.idle_link)))
    (Raise (Exn ConnectionError "no servers available"))
    = (Ok tt, Examples.voice_online).
Proof.
  split; [|split].
  - apply (nats_connect_idempotent Examples.voice_online
             (Raise (Exn ConnectionError "no servers available"))
             (Ok Examples.idle_link)).
    reflexivity.
  - apply (nats_connect_idempotent Examples.voice_offline
             (Raise (Exn ConnectionError "no servers available"))
             (Ok Examples.idle_link)); reflexivity.
  - apply (nats_connect_idempotent Examples.voice_offline
             (Ok Examples.idle_link)
             (Raise (Exn ConnectionError "no servers available"))).
    reflexivity.
Defined.

(** X2: the voice client after [disconnect]. *)
Lemma nats_publish_after_disconnect_witness :
  fst (NATSAgentClient.publish
         (snd (NATSAgentClientOps.disconnect Examples.voice_online (Ok tt)))
         Examples.env0 "agent.voice.session.started" ∅ None None)
    = Raise (Exn ConnectionError "voice: Not connected to NATS") /\
  NATSAgentClientOps._reconnected_callback
    (NATSAgentClientOps._disconnected_callback Examples.voice_online)
    = Examples.voice_online.
Proof.
  destruct (nats_publish_after_disconnect Examples.voice_online Examples.env0
              (Ok tt) "agent.voice.session.started" ∅ None None)
    as [Hpub Hback].
  split.
  - destruct (Hpub (snd (NATSAgentClientOps.disconnect Examples.voice_online
                           (Ok tt))) (or_introl eq_refl)) as [Hraise _].
    exact Hraise.
  - apply Hback. reflexivity.
Defined.

(** X4: a session start published by the connected voice client. *)
Lemma nats_convenience_publishers_witness :
  exists (self' : NATSAgentClient.t) (m : gmap string json),
    NATSAgentClientOps.publish_session_started Examples.voice_online
      Examples.env0 "user-1" "s-1" "room" "RM_1" "PA_1" "arc-scarlett-voice"
      None = (Ok tt, self') /\
    NATSAgentClient.wire (NATSAgentClient.nc self')
      = [("agent.voice.session.started", Encoded (JObj m))] /\
    m !! "event_type" = Some (JStr "session_started") /\
    m !! "service" = Some (JStr "voice").
Proof.
  destruct (nats_convenience_publishers Examples.voice_online Examples.env0
              None eq_refl eq_refl) as [Hsession _].
  destruct (Hsession "user-1" "s-1" "room" "RM_1" "PA_1" "arc-scarlett-voice")
    as (self' & m & Hp & Hw & Hev & _ & _ & _ & Hsvc & _).
  exists self', m. split; [exact Hp|]. split; [exact Hw|].
  split; [exact Hev | exact Hsvc].
Defined.

(** X5: the durable client before [connect]. *)
Lemma pulsar_produce_not_connected_witness :
  PulsarAgentClient.produce MoreExamples.brain_durable_offline Examples.env0
    "persistent://arc/events/conversations" ∅ None None None None
  = (Raise (Exn ConnectionError "brain: Not connected to Pulsar"),
     MoreExamples.brain_durable_offline).
Proof.
  apply (pulsar_produce_not_connected MoreExamples.brain_durable_offline
           Examples.env0 "persistent://arc/events/conversations" ∅
           None None None None).
  - reflexivity.
  - apply not_elem_of_empty.
Defined.

(** X6: the first event creates the producer of its topic. *)
Lemma pulsar_producer_cache_witness :
  "persistent://arc/events/conversations"
    ∈ PulsarAgentClient.producers
        (snd (PulsarAgentClient.produce Examples.brain_durable Examples.env0
                "persistent://arc/events/conversations" ∅ None None None
                None)).
Proof.
  apply (pulsar_producer_cache Examples.brain_durable Examples.env0
           "persistent://arc/events/conversations" ∅ None None None None
           (Ok tt)).
  reflexivity.
Defined.

(** X7: a keyed event on the empty broker. *)
Lemma pulsar_produce_message_witness :
  exists msg : PulsarAgentClient.Message,
    PulsarAgentClient.log
      (PulsarAgentClient.client
         (snd (PulsarAgentClient.produce Examples.brain_durable Examples.env0
                 "persistent://arc/events/conversations" ∅ (Some "conv-1")
                 None (Some "turn_completed") None))) = [msg] /\
    PulsarAgentClient.msg_partition_key msg = Some "conv-1" /\
    PulsarAgentClient.msg_properties msg !! "service" = Some (JStr "brain") /\
    PulsarAgentClient.msg_properties msg !! "event_type"
      = Some (JStr "turn_completed").
Proof.
  destruct (pulsar_produce_message Examples.brain_durable
              (snd (PulsarAgentClient.produce Examples.brain_durable
                      Examples.env0 "persistent://arc/events/conversations"
                      ∅ (Some "conv-1") None (Some "turn_completed") None))
              Examples.env0 "persistent://arc/events/conversations" ∅
              (Some "conv-1") None (Some "turn_completed") None 0%nat)
    as (msg & body & trace & Hlog & _ & _ & Hkey & _ & _ & Hsvc & Hev & _);
    [reflexivity|].
  exists msg. split; [exact Hlog|]. split; [exact Hkey|].
  split; [exact Hsvc|]. by apply Hev.
Defined.

(** X8: a conversation event and an audit record of the brain service. *)
Lemma pulsar_topic_wrappers_witness :
  (exists msg : PulsarAgentClient.Message,
     PulsarAgentClient.log
       (PulsarAgentClient.client
          (snd (PulsarAgentClient.produce_conversation_event
                  Examples.brain_durable Examples.env0 "conv-1"
                  "turn_completed" ∅ None))) = [msg] /\
     PulsarAgentClient.msg_topic msg
       = "persistent://arc/events/conversations" /\
     PulsarAgentClient.msg_partition_key msg = Some "conv-1") /\
  (exists msg : PulsarAgentClient.Message,
     PulsarAgentClient.log
       (PulsarAgentClient.client
          (snd (PulsarAgentClientOps.produce_audit_log
                  Examples.brain_durable Examples.env0 "user-1" "delete"
                  "conversation/7" ∅ None))) = [msg] /\
     PulsarAgentClient.msg_topic msg = "persistent://arc/audit/logs" /\
     PulsarAgentClient.msg_partition_key msg = Some "user-1").
Proof.
  split.
  - destruct (pulsar_topic_wrappers Examples.brain_durable
                (snd (PulsarAgentClient.produce_conversation_event
                        Examples.brain_durable Examples.env0 "conv-1"
                        "turn_completed" ∅ None))
                Examples.env0 ∅ None 0%nat) as [Hconv _].
    destruct (Hconv "conv-1" "turn_completed")
      as (msg & Hlog & Htopic & Hkey & _);
      [discriminate | discriminate | reflexivity |].
    exists msg. split; [exact Hlog|]. split; [exact Htopic | exact Hkey].
  - destruct (pulsar_topic_wrappers Examples.brain_durable
                (snd (PulsarAgentClientOps.produce_audit_log
                        Examples.brain_durable Examples.env0 "user-1" "delete"
                        "conversation/7" ∅ None))
                Examples.env0 ∅ None 0%nat) as (_ & Haudit & _).
    destruct (Haudit "user-1" "delete" "conversation/7")
      as (msg & body & Hlog & Htopic & Hkey & _);
      [discriminate | reflexivity | reflexivity | reflexivity |].
    exists msg. split; [exact Hlog|]. split; [exact Htopic | exact Hkey].
Defined.


(** X10: with room for one turn, the query [hi] of user [u1] gets the turn
    at distance 0 and leaves out the one at distance 3456. *)
Lemma get_context_nearest_witness :
  scalar_le ((3, "hi", 0) : Z * string * Z).2
            ((1, "hello", 3456) : Z * string * Z).2.
Proof.
  apply (get_context_nearest
           Examples.db_two_users Examples.db_two_users "u1" "hi" 1
           [(3, "hi", 0)]).
  - reflexivity.
  - apply list_elem_of_here.
  - change (((1, "hello", 3456) : Z * string * Z)
              ∈ [(1, "hello", 3456); (3, "hi", 0)]).
    apply list_elem_of_here.
  - intros Hin%list_elem_of_singleton. discriminate Hin.
Defined.

(** X11: the latest turn of user [u1]. *)
Lemma get_recent_conversations_latest_witness :
  exists rows : list Database.Conversation,
    [(3, "hi")] = (fun c => (Database.id c, Database.text c)) <$> rows /\
    Z.of_nat (length rows) <= 1 /\
    (forall c, c ∈ rows ->
       c ∈ Database.conversations Examples.db_two_users /\
       Database.user_id c = "u1").
Proof.
  destruct (get_recent_conversations_latest Examples.db_two_users
              Examples.db_two_users "u1" 1 [(3, "hi")])
    as (_ & rows & Hres & Hlen & _ & Hmine & _); [reflexivity|].
  exists rows. split; [exact Hres|]. split; [exact Hlen | exact Hmine].
Defined.

(** X12: the first turn saved into the empty table is found again. *)
Lemma save_then_get_context_witness :
  exists res,
    Database.get_context
      (snd (Database.save_conversation Examples.db_empty "user-1" "Hello"))
      "user-1" "Hello" 5
    = (Ok res,
       snd (Database.save_conversation Examples.db_empty "user-1" "Hello")) /\
    (1, "Hello", l2_distance (encode "Hello") (encode "Hello")) ∈ res.
Proof.
  destruct (save_then_get_context
              Examples.db_empty
              (snd (Database.save_conversation Examples.db_empty "user-1"
                      "Hello"))
              "user-1" "Hello" 1) as [Hfound _]; [reflexivity|].
  apply (Hfound "Hello" 5). reflexivity.
Defined.

(** X13: the empty table with the sequence at 1. *)
Lemma save_conversation_primary_key_witness :
  primary_key_ok
    (snd (Database.save_conversation Examples.db_empty "user-1" "Hello")) /\
  Database.next_id
    (snd (Database.save_conversation Examples.db_empty "user-1" "Hello"))
    = 1 + 1.
Proof.
  destruct (save_conversation_primary_key Examples.db_empty
              (snd (Database.save_conversation Examples.db_empty "user-1"
                      "Hello"))
              "user-1" "Hello" (Ok 1)) as [Hkey Hid].
  - reflexivity.
  - split; [apply NoDup_nil_2 | apply Forall_nil_2].
  - split; [exact Hkey|]. by destruct (Hid 1 eq_refl) as (_ & _ & ->).
Defined.

(** X14: the nearest turn of user [u1] in a session of three. *)
Lemma find_similar_conversations_top_witness :
  exists res,
    Models.find_similar_conversations MoreExamples.sdk_session [0; 1] 1
      (Some "u1") = Ok res /\
    Z.of_nat (length res) <= 1 /\
    (forall c, c ∈ res -> c ∈ MoreExamples.sdk_session).
Proof.
  destruct (find_similar_conversations_top
              MoreExamples.sdk_session [0; 1] 1 (Some "u1")) as [_ Htop].
  destruct Htop as (res & Hres & Hlen & _ & Hin & _); [discriminate|].
  exists res. split; [exact Hres|]. split; [exact Hlen | exact Hin].
Defined.

(** X15: the first node on the initial state of user [u1]. *)
Lemma retrieve_context_node_context_witness :
  exists texts : list string,
    Graph.retrieve_context_node (Graph.initial_state "u1" "hi")
      Examples.db_two_users
    = (Ok (<["context" := Graph.VTexts texts]>
             (Graph.initial_state "u1" "hi")), Examples.db_two_users) /\
    (length texts <= 5)%nat.
Proof.
  destruct (retrieve_context_node_context (Graph.initial_state "u1" "hi")
              Examples.db_two_users "u1" [Graph.HumanMessage "hi"])
    as (texts & Hrun & Hlen & _);
    [by vm_compute | by vm_compute | reflexivity |].
  exists texts. split; [exact Hrun | exact Hlen].
Defined.

(** X16: a pass whose LLM call times out answers with the apology. *)
Lemma reasoning_pass_survives_llm_witness :
  fst (Graph.invoke_reasoning_graph
         (Graph.create_reasoning_graph Examples.llm_timeout)
         Examples.db_empty "user-1" "Hello")
    = Ok Graph.FALLBACK_RESPONSE.
Proof.
  destruct (reasoning_pass_survives_llm
              Examples.llm_timeout Examples.db_empty "user-1" "Hello")
    as (reply & Hrun & Hfallback).
  - reflexivity.
  - apply Nat.leb_le. reflexivity.
  - intros text. apply length_replicate.
  - rewrite Hrun. cbn [fst]. f_equal. apply Hfallback.
    intros prompt. eexists. reflexivity.
Defined.

(** X17: with an embedding model that fails on the reply, the pass raises
    and the user's message stays in the table. *)
Lemma reasoning_pass_failure_rows_witness :
  fst (@Graph.invoke_reasoning_graph Z_vectors MoreExamples.ragged_model
         (@Graph.create_reasoning_graph Z_vectors MoreExamples.ragged_model
            Examples.llm_hi)
         Examples.db_empty "user-1" "Hello")
    = Raise (Exn DatabaseError "expected 384 dimensions") /\
  Database.text
    <$> Database.conversations
          (snd (@Graph.invoke_reasoning_graph Z_vectors
                  MoreExamples.ragged_model
                  (@Graph.create_reasoning_graph Z_vectors
                     MoreExamples.ragged_model Examples.llm_hi)
                  Examples.db_empty "user-1" "Hello"))
    = ["Hello"].
Proof.
  destruct (@reasoning_pass_failure_rows Z_vectors MoreExamples.ragged_model
              Examples.llm_hi Examples.db_empty "user-1" "Hello")
    as (_ & Hstored & _).
  destruct (Hstored (Exn DatabaseError "expected 384 dimensions"))
    as [_ Hpass].
  rewrite Hpass; [split; reflexivity|].
  exists []. split; [reflexivity|]. split; reflexivity.
Defined.

(** X18: a pass on the empty table. *)
Lemma reasoning_pass_primary_key_witness :
  primary_key_ok
    (snd (Graph.invoke_reasoning_graph
            (Graph.create_reasoning_graph Examples.llm_hi)
            Examples.db_empty "user-1" "Hello")).
Proof.
  apply (reasoning_pass_primary_key
           Examples.llm_hi Examples.db_empty "user-1" "Hello").
  split; [apply NoDup_nil_2 | apply Forall_nil_2].
Defined.

(** X19: the answer to a request of user [user-1]. *)
Lemma handle_brain_request_reply_witness :
  exists m : gmap string json,
    loads (fst (NatsHandler.handle_brain_request MoreExamples.greeter
                  Examples.db_empty MoreExamples.hello_request 12))
      = Some (JObj m) /\
    m !! "latency_ms" = Some (JNum 12).
Proof.
  destruct (handle_brain_request_reply MoreExamples.greeter Examples.db_empty
              MoreExamples.hello_request 12)
    as (m & Hm & Hlat & _).
  - intros payload k v [= <-] [-> | ->] Hv _.
    + exists "user-1". by vm_compute in Hv; injection Hv as <-.
    + exists "Hello". by vm_compute in Hv; injection Hv as <-.
  - exists m. split; [exact Hm | exact Hlat].
Defined.

(** X20: a payload that is not JSON. *)
Lemma handle_brain_request_rejects_witness :
  exists msg,
    NatsHandler.handle_brain_request MoreExamples.greeter Examples.db_empty
      MoreExamples.not_json 12
    = (Encoded (JObj {[ "error" := JStr msg; "latency_ms" := JNum 12 ]}),
       Examples.db_empty).
Proof.
  apply (handle_brain_request_rejects MoreExamples.greeter Examples.db_empty
           MoreExamples.not_json 12).
  intros (payload & Hloads & _). discriminate Hloads.
Defined.

(** X21: the voice plugin gets the greeting of the brain service. *)
Lemma chat_through_brain_witness :
  SherlockLLM.response_text
    (fst (SherlockLLM.chat (fun _ => "") Examples.plugin
            (brain_server MoreExamples.greeter Examples.db_empty 12)
            [SherlockLLM.WithContent "Hello"]))
  = JStr "Hi there!".
Proof.
  destruct (chat_through_brain (fun _ => "") Examples.plugin
              MoreExamples.greeter Examples.db_empty 12
              [SherlockLLM.WithContent "Hello"]) as (_ & Hreply & _).
  apply (Hreply ltac:(discriminate) ltac:(discriminate) "Hi there!"
           (snd (Graph.invoke_reasoning_graph MoreExamples.greeter
                   Examples.db_empty "default_user" "Hello"))).
  reflexivity.
Defined.

(** X22: the endpoint leaves the store as the pass does. *)
Lemma chat_endpoint_and_handler_witness :
  snd (Main.chat (Some Examples.db_empty) (Some MoreExamples.greeter)
         {| Main.req_user_id := "user-1"; Main.req_text := "Hello" |} 12)
  = Some (snd (Graph.invoke_reasoning_graph MoreExamples.greeter
                 Examples.db_empty "user-1" "Hello")).
Proof.
  apply (chat_endpoint_and_handler MoreExamples.greeter Examples.db_empty
           "user-1" "Hello" 12).
  discriminate.
Defined.

(** X23: with the server down the graph raises what the query raises. *)
Lemma graph_fails_only_on_retrieval_witness :
  Database.get_context Examples.db_down "user-1" "Hello" 5
  = (Raise (Exn DatabaseError "connection refused"), Examples.db_down).
Proof.
  apply (graph_fails_only_on_retrieval
           Examples.llm_hi "user-1" "Hello").
  reflexivity.
Defined.
